(** * Simple-File-System: a shallow embedding of [main.go]

    The program is one Go file: four HTTP handlers over a storage directory
    [uploads], an append-only log [log.txt] and a configuration record.  The
    embedding keeps the handlers as functions from a request and a world (the
    file tree seen from the working directory, the operator console) to a
    response and a new world.  The Go library functions the handlers call
    ([path/filepath], [fmt], [github.com/google/uuid], [os], [net/http]) are
    modelled next to them, each on the fragment of its behaviour that
    [main.go] can reach, as documented for Unix. *)

From Stdlib Require Import String Ascii List ZArith Lia Bool Arith.
From Stdlib Require Import DecimalString.
Import ListNotations.

Set Warnings "-register-all".

Local Open Scope list_scope.
Local Open Scope string_scope.

(* ================================================================= *)
(** * Byte strings *)

(** Go strings are byte sequences; [string] of the Standard Library is the
    same thing, one [ascii] per byte. *)

Module Bytes.

Definition slash : ascii := "/"%char.
Definition dot : ascii := "."%char.
Definition percent : ascii := "%"%char.
(** The double quote, byte 34. *)
Definition dquote : string := String (ascii_of_nat 34) "".
(** The line feed, byte 10. *)
Definition newline : string := String (ascii_of_nat 10) "".

(** [strings.Split(s, "/")]: the pieces between separators; never empty. *)
Fixpoint split (s : string) : list string :=
  match s with
  | EmptyString => [""]
  | String c r =>
      if Ascii.eqb c slash then "" :: split r
      else match split r with
           | h :: t => String c h :: t
           | [] => [String c ""]
           end
  end.

(** [strings.HasSuffix]. *)
Fixpoint has_suffix (s suf : string) : bool :=
  String.eqb s suf ||
  match s with
  | EmptyString => false
  | String _ r => has_suffix r suf
  end.

(** [strings.Contains]. *)
Fixpoint contains (s sub : string) : bool :=
  String.prefix sub s ||
  match s with
  | EmptyString => false
  | String _ r => contains r sub
  end.

(** Does the byte [c] occur in [s]? *)
Fixpoint mem (c : ascii) (s : string) : bool :=
  match s with
  | EmptyString => false
  | String d r => Ascii.eqb d c || mem c r
  end.

(** [s] without its trailing separators. *)
Fixpoint trim_slashes (s : string) : string :=
  match s with
  | EmptyString => ""
  | String c r =>
      match trim_slashes r with
      | EmptyString => if Ascii.eqb c slash then "" else String c ""
      | r' => String c r'
      end
  end.

(** [s[n:]] and [s[:n]] for [n <= len(s)]. *)
Fixpoint drop (n : nat) (s : string) : string :=
  match n, s with
  | O, _ => s
  | S k, String _ r => drop k r
  | S _, EmptyString => ""
  end.

Fixpoint take (n : nat) (s : string) : string :=
  match n, s with
  | O, _ => ""
  | S k, String c r => String c (take k r)
  | S _, EmptyString => ""
  end.

End Bytes.

(* ================================================================= *)
(** * [path/filepath] on Unix *)

Module filepath.
Import Bytes.

(** The suffix of [s] that starts at its last dot, or [""]. *)
Fixpoint from_last_dot (s : string) : string :=
  match s with
  | EmptyString => ""
  | String c r =>
      match from_last_dot r with
      | EmptyString => if Ascii.eqb c dot then s else ""
      | e => e
      end
  end.

(** [filepath.Ext]: the suffix beginning at the final dot in the final
    element of the path; empty if there is no dot. *)
Definition Ext (path : string) : string :=
  from_last_dot (last (split path) "").

(** [filepath.Base]: the last element of the path, trailing separators
    removed first; ["."] for the empty path, ["/"] for a path of
    separators only. *)
Definition Base (path : string) : string :=
  if String.eqb path "" then "."
  else
    let p := trim_slashes path in
    if String.eqb p "" then "/" else last (split p) "".

(** One element of the path met by [Clean]; [out] holds the elements
    written so far, last one first.  A [..] removes the element before
    it when there is one that is not itself a leading [..]; otherwise it
    is kept on a relative path and dropped on a rooted one. *)
Definition clean_elem (rooted : bool) (out : list string) (e : string)
  : list string :=
  if String.eqb e "" || String.eqb e "." then out
  else if String.eqb e ".." then
    match out with
    | top :: rest =>
        if negb (String.eqb top "..") then rest
        else if negb rooted then ".." :: out else out
    | [] => if negb rooted then [".."] else []
    end
  else e :: out.

Definition rooted (path : string) : bool :=
  match path with
  | String c _ => Ascii.eqb c slash
  | EmptyString => false
  end.

(** [filepath.Clean]: the shortest path name equivalent to [path] by
    purely lexical processing. *)
Definition Clean (path : string) : string :=
  if String.eqb path "" then "."
  else
    let r := rooted path in
    let out := fold_left (clean_elem r) (split path) [] in
    if r then "/" ++ String.concat "/" (rev out)
    else match out with
         | [] => "."
         | _ => String.concat "/" (rev out)
         end.

(** [filepath.Join]: joins the elements from the first non-empty one on
    with separators and cleans the result; [""] when all are empty. *)
Fixpoint Join (elem : list string) : string :=
  match elem with
  | [] => ""
  | e :: rest =>
      if String.eqb e "" then Join rest
      else Clean (String.concat "/" elem)
  end.

(** The elements of a cleaned path, as the scan of [Rel] meets them. *)
Definition elems (p : string) : list string :=
  if String.eqb p "" then []
  else if String.eqb p "/" then [""]
  else split p.

Fixpoint strip_common (b t : list string) : list string * list string :=
  match b, t with
  | x :: b', y :: t' =>
      if String.eqb x y then strip_common b' t' else (b, t)
  | _, _ => (b, t)
  end.

(** [filepath.Rel]: a path that is lexically equivalent to [targpath]
    when joined to [basepath]; [None] when [targpath] cannot be made
    relative to [basepath]. *)
Definition Rel (basepath targpath : string) : option string :=
  let base := Clean basepath in
  let targ := Clean targpath in
  if String.eqb targ base then Some "."
  else
    let base := if String.eqb base "." then "" else base in
    if negb (Bool.eqb (rooted base) (rooted targ)) then None
    else
      let '(b, t) := strip_common (elems base) (elems targ) in
      match b with
      | [] => Some (String.concat "/" t)
      | b0 :: _ =>
          if String.eqb b0 ".." then None
          else Some (String.concat "/" (map (fun _ => "..") b ++ t)%list)
      end.

End filepath.


(* ================================================================= *)
(** * [fmt.Sprintf] on string operands *)

(** The fragment [main.go] uses: verbs written without flags, width,
    precision or argument index, and operands that are strings printed
    with [%s] (or [%v]).  A verb with no operand left prints
    [%!verb(MISSING)]; another verb on a string operand prints
    [%!verb(string=operand)]; operands left over are listed after
    [%!(EXTRA]; a [%] that ends the format prints [%!(NOVERB)]. *)

Module fmt.
Import Bytes.

Definition extra (args : list string) : string :=
  match args with
  | [] => ""
  | _ => "%!(EXTRA " ++
         String.concat ", " (map (fun a => "string=" ++ a) args) ++ ")"
  end.

Definition print_arg (verb : ascii) (a : string) : string :=
  if Ascii.eqb verb "s"%char || Ascii.eqb verb "v"%char then a
  else "%!" ++ String verb ("(string=" ++ a ++ ")").

Fixpoint Sprintf (format : string) (args : list string) : string :=
  match format with
  | EmptyString => extra args
  | String c r =>
      if Ascii.eqb c percent then
        match r with
        | EmptyString => "%!(NOVERB)" ++ extra args
        | String verb r' =>
            if Ascii.eqb verb percent then String percent (Sprintf r' args)
            else
              match args with
              | [] => "%!" ++ String verb ("(MISSING)" ++ Sprintf r' [])
              | a :: args' => print_arg verb a ++ Sprintf r' args'
              end
        end
      else String c (Sprintf r args)
  end.

End fmt.

(* ================================================================= *)
(** * [github.com/google/uuid] *)

Module uuid.

(** A UUID is sixteen bytes, each an integer in [0, 256). *)
Definition UUID := list Z.

Definition hextable : string := "0123456789abcdef".

Definition hex_digit (n : Z) : ascii :=
  match String.get (Z.to_nat (Z.land n 15)) hextable with
  | Some c => c
  | None => "0"%char
  end.

(** [hex.Encode]: [hextable[v>>4]] and [hextable[v&0x0f]] for each byte. *)
Fixpoint hex_encode (bs : list Z) : string :=
  match bs with
  | [] => ""
  | b :: r =>
      String (hex_digit (Z.shiftr b 4))
        (String (hex_digit b) (hex_encode r))
  end.

Definition set_byte (i : nat) (f : Z -> Z) (u : UUID) : UUID :=
  (firstn i u ++
   match skipn i u with
   | b :: r => f b :: r
   | [] => []
   end)%list.

(** [uuid.NewRandom]: reads sixteen bytes from the random source, then
    stamps version 4 and the RFC 4122 variant.  [src] is what the
    source delivers: [None] when the read fails, and a short read is an
    error as well ([io.ReadFull]). *)
Definition NewRandom (src : option (list Z)) : option UUID :=
  match src with
  | None => None
  | Some bs =>
      if (length bs <? 16)%nat then None
      else
        let u := map (fun b => Z.land b 255) (firstn 16 bs) in
        let u := set_byte 6 (fun b => Z.lor (Z.land b 15) 64) u in
        let u := set_byte 8 (fun b => Z.lor (Z.land b 63) 128) u in
        Some u
  end.

(** [UUID.String]: xxxxxxxx-xxxx-xxxx-xxxx-xxxxxxxxxxxx. *)
Definition String (u : UUID) : string :=
  hex_encode (firstn 4 u) ++ "-" ++
  hex_encode (firstn 2 (skipn 4 u)) ++ "-" ++
  hex_encode (firstn 2 (skipn 6 u)) ++ "-" ++
  hex_encode (firstn 2 (skipn 8 u)) ++ "-" ++
  hex_encode (skipn 10 u).

End uuid.

(* ================================================================= *)
(** * [time]: the layout "2006-01-02 15:04:05" *)

Module time.

Record Time := mkTime
  { year : nat; month : nat; day : nat;
    hour : nat; minute : nat; second : nat }.

Fixpoint zeros (n : nat) : string :=
  match n with
  | O => ""
  | S k => String "0"%char (zeros k)
  end.

(** [appendInt]: decimal, padded with zeros to [width] digits. *)
Definition append_int (x width : nat) : string :=
  let d := NilEmpty.string_of_uint (Nat.to_uint x) in
  zeros (width - String.length d) ++ d.

(** [t.Format("2006-01-02 15:04:05")]. *)
Definition Format (t : Time) : string :=
  append_int (year t) 4 ++ "-" ++ append_int (month t) 2 ++ "-" ++
  append_int (day t) 2 ++ " " ++ append_int (hour t) 2 ++ ":" ++
  append_int (minute t) 2 ++ ":" ++ append_int (second t) 2.

End time.

(* ================================================================= *)
(** * [os]: the file tree *)

(** The tree is the one seen from the process's working directory, which
    every path of [main.go] is relative to; the working directory is the
    top of the model, and [..] at the top stays there, as at [/].  There
    are no symbolic links and no special files: an entry that is not a
    directory is a regular file.  A directory lists its entries in the
    order [readDirNames] reports them (sorted by name). *)

Module os.
Import Bytes.

Inductive node : Type :=
| File (data : string)                      (* a regular file *)
| Dir (entries : list (string * node))      (* a directory *)
| NoAccess.                                 (* a directory of mode 000 *)

Definition entries := list (string * node).

Inductive errno := ENOENT | ENOTDIR | EISDIR | EACCES | EIO.

Inductive result (A : Type) : Type :=
| Ok (a : A)
| Err (e : errno).
Arguments Ok {A} a.
Arguments Err {A} e.

(** [os.IsNotExist] and [os.IsPermission] on a system-call error. *)
Definition IsNotExist (e : errno) : bool :=
  match e with ENOENT => true | _ => false end.
Definition IsPermission (e : errno) : bool :=
  match e with EACCES => true | _ => false end.

Fixpoint lookup (name : string) (es : entries) : option node :=
  match es with
  | [] => None
  | (k, n) :: r => if String.eqb k name then Some n else lookup name r
  end.

(** The node reached from [n] through the names [cs]. *)
Fixpoint get_node (n : node) (cs : list string) : option node :=
  match cs with
  | [] => Some n
  | c :: r =>
      match n with
      | Dir es =>
          match lookup c es with
          | Some m => get_node m r
          | None => None
          end
      | _ => None
      end
  end.

(** Path resolution: [cur] is the directory reached so far (its names
    from the top, last one first), [comps] what is left of the path.
    Each component is looked up in a directory that must exist and be
    searchable; the last component itself need not exist. *)
Fixpoint locate (top : node) (cur comps : list string)
  : result (list string) :=
  match comps with
  | [] => Ok (rev cur)
  | c :: rest =>
      match get_node top (rev cur) with
      | Some (Dir _) =>
          if String.eqb c "" || String.eqb c "." then locate top cur rest
          else if String.eqb c ".." then locate top (tl cur) rest
          else locate top (c :: cur) rest
      | Some (File _) => Err ENOTDIR
      | Some NoAccess => Err EACCES
      | None => Err ENOENT
      end
  end.

Definition namei (d : entries) (path : string) : result (list string) :=
  if String.eqb path "" then Err ENOENT
  else locate (Dir d) [] (split path).

(** [os.Stat] (and [os.Lstat]: there are no links). *)
Definition Stat (d : entries) (path : string) : result node :=
  match namei d path with
  | Err e => Err e
  | Ok cs =>
      match get_node (Dir d) cs with
      | Some n => Ok n
      | None => Err ENOENT
      end
  end.

(** [os.ReadFile]. *)
Definition ReadFile (d : entries) (path : string) : result string :=
  match Stat d path with
  | Err e => Err e
  | Ok (File data) => Ok data
  | Ok (Dir _) => Err EISDIR
  | Ok NoAccess => Err EACCES
  end.

(** The entry [name] set to [n]: replaced where it is, or added at its
    place in the order of names. *)
Fixpoint put_entry (name : string) (n : node) (es : entries) : entries :=
  match es with
  | [] => [(name, n)]
  | (k, v) :: r =>
      if String.eqb k name then (name, n) :: r
      else if String.ltb name k then (name, n) :: (k, v) :: r
      else (k, v) :: put_entry name n r
  end.

(** The node at the names [cs] set to [n]; the directories on the way
    must exist. *)
Fixpoint put_node (cs : list string) (n : node) (es : entries) : entries :=
  match cs with
  | [] => es
  | c :: rest =>
      match rest with
      | [] => put_entry c n es
      | _ :: _ =>
          match lookup c es with
          | Some (Dir sub) => put_entry c (Dir (put_node rest n sub)) es
          | _ => es
          end
      end
  end.

(** An open file is named by where it is in the tree. *)
Definition fd := list string.

(** [os.OpenFile(path, O_WRONLY|O_CREATE, 0666)], which is also what
    the flags with [O_APPEND] added do at open time: an existing
    regular file is opened as it is (nothing is truncated, and there is
    no [O_EXCL] to refuse it), a missing one is created empty, a
    directory is refused. *)
Definition OpenFile_create (d : entries) (path : string)
  : result (entries * fd) :=
  match namei d path with
  | Err e => Err e
  | Ok cs =>
      match get_node (Dir d) cs with
      | Some (File _) => Ok (d, cs)
      | Some (Dir _) => Err EISDIR
      | Some NoAccess => Err EISDIR
      | None => Ok (put_node cs (File "") d, cs)
      end
  end.

Definition contents (d : entries) (f : fd) : string :=
  match get_node (Dir d) f with
  | Some (File data) => data
  | _ => ""
  end.

(** [data] written over [old] from offset [off] on. *)
Definition overwrite (old : string) (off : nat) (data : string) : string :=
  take off old ++ data ++ drop (off + String.length data) old.

(** A write of [data] at offset [off] of the open file.  [fault] is the
    device's part: [None] when the whole of [data] goes through,
    [Some k] when the write breaks off with an error after [k] bytes. *)
Definition write_at (d : entries) (f : fd) (off : nat) (data : string)
           (fault : option nat) : entries * bool :=
  match fault with
  | None => (put_node f (File (overwrite (contents d f) off data)) d, true)
  | Some k =>
      (put_node f (File (overwrite (contents d f) off (take k data))) d,
       false)
  end.

(** ** [filepath.Walk] *)

Section Walk.
Variables S E : Type.

(** The walk function: the path, whether it is a directory, the
    error met on the way to it, and the state its closure holds. *)
Variable fn : string -> bool -> option errno -> S -> E + S.

(** [walk]: a file is handed to [fn]; a directory is read, handed to
    [fn] together with the error of reading it, and, when both went
    well, its entries are walked in order; the first error ends the
    walk.  ([fn] has no [SkipDir] to return.) *)
Fixpoint walk (path : string) (n : node) (s : S) {struct n} : E + S :=
  match n with
  | File _ => fn path false None s
  | NoAccess => fn path true (Some EACCES) s
  | Dir es =>
      match fn path true None s with
      | inl e => inl e
      | inr s1 =>
          (fix walk_entries (es : entries) (s : S) : E + S :=
             match es with
             | [] => inr s
             | (name, child) :: r =>
                 match walk (filepath.Join [path; name]) child s with
                 | inl e => inl e
                 | inr s2 => walk_entries r s2
                 end
             end) es s1
      end
  end.

(** [filepath.Walk(root, fn)]. *)
Definition Walk (d : entries) (root : string) (s : S) : E + S :=
  match Stat d root with
  | Err e => fn root false (Some e) s
  | Ok n => walk root n s
  end.
End Walk.

End os.

(* ================================================================= *)
(** * [net/http]: requests, responses, [Error], [ServeFile] *)

(** A request is its method, the path of its URL and, for an upload,
    what [r.FormFile("file")] finds: the file name and the bytes of the
    part, or nothing when the form cannot be parsed.  Query strings and
    conditional or range headers are outside the model.  A response is
    what the handler has put on the [ResponseWriter]: the status, the
    headers it set, and the body; headers the server adds on its own
    (length, date, sniffed type) are left out. *)

Module http.
Import Bytes os.

Definition Header := list (string * string).

Fixpoint Del (k : string) (h : Header) : Header :=
  match h with
  | [] => []
  | (k', v) :: r => if String.eqb k' k then Del k r else (k', v) :: Del k r
  end.

Definition Set_ (k v : string) (h : Header) : Header := (k, v) :: Del k h.

Fixpoint Get (k : string) (h : Header) : string :=
  match h with
  | [] => ""
  | (k', v) :: r => if String.eqb k' k then v else Get k r
  end.

Inductive Body :=
| Data (bytes : string)            (* bytes written to the client *)
| Index (names : list string).     (* the listing page of a directory *)

Record Response := mkResponse
  { status : nat; header : Header; body : Body }.

Record Request := mkRequest
  { Method : string;
    URLPath : string;
    FormFile : option (string * string) }.

(** What a handler leaves behind: a response, or a panic (the server
    drops the connection). *)
Inductive Outcome :=
| Reply (resp : Response)
| Panic.

(** A body written with [fmt.Fprintf] on a fresh writer: status 200. *)
Definition Page (h : Header) (text : string) : Response :=
  {| status := 200; header := h; body := Data text |}.

(** [http.Error]. *)
Definition Error (h : Header) (msg : string) (code : nat) : Response :=
  {| status := code;
     header := Set_ "X-Content-Type-Options" "nosniff"
                 (Set_ "Content-Type" "text/plain; charset=utf-8" h);
     body := Data (msg ++ newline) |}.

(** [http.NotFound]. *)
Definition NotFound (h : Header) : Response :=
  Error h "404 page not found" 404.

Definition StatusBadRequest := 400.
Definition StatusInternalServerError := 500.

Definition localRedirect (h : Header) (newPath : string) : Response :=
  {| status := 301; header := Set_ "Location" newPath h; body := Data "" |}.

(** The fields of [v] between slashes and backslashes. *)
Fixpoint fields (v : string) : list string :=
  match v with
  | EmptyString => [""]
  | String c r =>
      if Ascii.eqb c slash || Ascii.eqb c "\"%char then "" :: fields r
      else match fields r with
           | h :: t => String c h :: t
           | [] => [String c ""]
           end
  end.

Definition containsDotDot (v : string) : bool :=
  existsb (fun ent => String.eqb ent "..") (fields v).

(** [toHTTPError], after [mapOpenError] has turned the error of opening
    a file below a non-directory into not-exist. *)
Definition toHTTPError (e : errno) : string * nat :=
  let e := match e with ENOTDIR => ENOENT | _ => e end in
  if IsNotExist e then ("404 page not found", 404)
  else if IsPermission e then ("403 Forbidden", 403)
  else ("500 Internal Server Error", 500).

Definition TrimSuffix (s suffix : string) : string :=
  if has_suffix s suffix
  then take (String.length s - String.length suffix) s
  else s.

Definition ends_with_slash (url : string) : bool :=
  negb (String.eqb url "") && has_suffix url "/".

Definition dirList (h : Header) (es : entries) : Response :=
  {| status := 200;
     header := Set_ "Content-Type" "text/html; charset=utf-8" h;
     body := Index (map (fun e => match snd e with
                                  | File _ => fst e
                                  | _ => fst e ++ "/"
                                  end) es) |}.

(** [http.ServeFile(w, r, name)] for a [name] made with [filepath.Join],
    with the headers [h] already set on [w] (among them Content-Type, so
    that nothing is sniffed).  A request path with a [..] element is
    refused, one that ends in [/index.html] is redirected; past that,
    [name] is clean and free of [..], and [filepath.Split] followed by
    [http.Dir.Open] opens [name] itself.  A regular file is sent; a
    directory is redirected to its slash form, or answered with its
    [index.html], or listed. *)
Definition ServeFile (d : entries) (h : Header) (r : Request)
           (name : string) : Response :=
  if containsDotDot (URLPath r) then Error h "invalid URL path" StatusBadRequest
  else if has_suffix (URLPath r) "/index.html" then localRedirect h "./"
  else
    match Stat d name with
    | Err e => let '(msg, code) := toHTTPError e in Error h msg code
    | Ok NoAccess => let '(msg, code) := toHTTPError EACCES in Error h msg code
    | Ok (File data) => Page h data
    | Ok (Dir es) =>
        if negb (ends_with_slash (URLPath r))
        then localRedirect h (filepath.Base (URLPath r) ++ "/")
        else
          match Stat d (TrimSuffix name "/" ++ "/index.html") with
          | Ok (File data) => Page h data
          | Ok (Dir es') => dirList h es'
          | _ => dirList h es
          end
    end.

(** [cleanPath] of the server's mux: the canonical form of a request
    path, without [.] and [..] elements and without repeated slashes; a
    trailing slash is kept. *)
Definition cleanPath (p : string) : string :=
  if String.eqb p "" then "/"
  else
    let p := if filepath.rooted p then p else "/" ++ p in
    let np := filepath.Clean p in
    if has_suffix p "/" && negb (String.eqb np "/") then
      if Nat.eqb (String.length p) (String.length np + 1) && String.prefix np p
      then p
      else np ++ "/"
    else np.

End http.

(* ================================================================= *)
(** * [main.go] *)

Import Bytes.
Import os.
Import http.

Record Config := mkConfig
  { Port : Z;
    LogTimestamp : bool;
    CustomHTMLHead : string;
    CustomHTMLBody : string;
    EnableXSSProtection : bool }.

Record FileMetadata := mkFileMetadata
  { ID : string; Filename : string }.

Definition uploadsDir : string := "uploads".
Definition logFileName : string := "log.txt".

(** The state the handlers work on: the file tree below the working
    directory and what has been printed on the console. *)
Record World := mkWorld
  { disk : entries; console : list string }.

(** What one request draws from outside the program: the random source
    read by [uuid.NewRandom], the clock, and whether the copy of the
    upload and the write of the log line go through ([None]) or break
    off after some bytes. *)
Record Env := mkEnv
  { rand : option (list Z);
    now : time.Time;
    copy_fault : option nat;
    log_fault : option nat }.

(** [fmt.Println] of a diagnostic; the text of the error value that
    follows the message is not kept. *)
Definition Println (msg : string) (w : World) : World :=
  {| disk := disk w; console := (console w ++ [msg])%list |}.

Definition set_disk (d : entries) (w : World) : World :=
  {| disk := d; console := console w |}.

(** The four raw string literals of the handlers. *)
Definition index_page : string := Eval vm_compute in
"
<!DOCTYPE html>
<html>
<head>
    <title>文件上传</title>
    <style>
        %s
    </style>
</head>
<body>
    %s
    <h1>文件上传</h1>
    <form action=" ++ dquote ++ "/upload" ++ dquote ++ " method=" ++ dquote ++ "post" ++ dquote ++ " enctype=" ++ dquote ++ "multipart/form-data" ++ dquote ++ ">
        <input type=" ++ dquote ++ "file" ++ dquote ++ " name=" ++ dquote ++ "file" ++ dquote ++ " id=" ++ dquote ++ "file" ++ dquote ++ ">
        <input type=" ++ dquote ++ "submit" ++ dquote ++ " value=" ++ dquote ++ "上传" ++ dquote ++ ">
    </form>
    <br>
    <a href=" ++ dquote ++ "/list" ++ dquote ++ ">查看文件列表</a>
</body>
</html>
".

Definition upload_page : string := Eval vm_compute in
"
<!DOCTYPE html>
<html>
<head>
    <title>文件上传成功</title>
    <style>
        %s
    </style>
</head>
<body>
    %s
    <h1>文件上传成功</h1>
    <p>文件已上传！</p>
    <p><a href=" ++ dquote ++ "%s" ++ dquote ++ ">点击这里</a>查看文件列表。</p>
</body>
</html>
".

Definition list_head : string := Eval vm_compute in
"
<!DOCTYPE html>
<html>
<head>
    <title>文件列表</title>
    <style>
        %s
        table {
            border-collapse: collapse;
            width: 100%;
        }
        th, td {
            text-align: left;
            padding: 8px;
            border-bottom: 1px solid #ddd;
        }
        tr:hover {
            background-color: #f5f5f5;
        }
        th {
            background-color: #4CAF50;
            color: white;
        }
    </style>
</head>
<body>
    %s
    <h1>文件列表</h1>
    <table>
        <tr>
            <th>ID</th>
            <th>文件名</th>
        </tr>
".

Definition list_foot : string := Eval vm_compute in
"
    </table>
    <br>
    <a href=" ++ dquote ++ "/" ++ dquote ++ ">返回上传页面</a>
</body>
</html>
".

(** [generateUUID]: the text of a fresh version-4 UUID, or the empty
    string (and a line on the console) when the random source fails. *)
Definition generateUUID (e : Env) (w : World) : string * World :=
  match uuid.NewRandom (rand e) with
  | None => ("", Println "无法生成UUID：" w)
  | Some uuidObj => (uuid.String uuidObj, w)
  end.

(** A Go [error] value as [getFileList] can return one. *)
Inductive error :=
| PathError (e : errno)      (* from the walk: [Lstat] or reading a directory *)
| RelError.                  (* from [filepath.Rel] *)

(** The closure [getFileList] hands to [filepath.Walk]; [files] is the
    slice it appends to. *)
Definition visit (path : string) (isDir : bool) (err : option errno)
           (files : list FileMetadata) : error + list FileMetadata :=
  match err with
  | Some e => inl (PathError e)
  | None =>
      if negb isDir then
        match filepath.Rel uploadsDir path with
        | None => inl RelError
        | Some relPath =>
            inr (files ++ [ {| ID := relPath;
                               Filename := filepath.Base relPath |} ])%list
        end
      else inr files
  end.

Definition getFileList (w : World) : error + list FileMetadata :=
  Walk (list FileMetadata) error visit (disk w) uploadsDir [].

(** [writeLog]: the message and a line feed appended to [log.txt]. *)
Definition writeLog (message : string) (e : Env) (w : World) : World :=
  match OpenFile_create (disk w) logFileName with
  | Err _ => Println "无法写入日志文件：" w
  | Ok (d, file) =>
      let logMessage := fmt.Sprintf ("%s" ++ newline) [message] in
      let '(d', ok) :=
        write_at d file (String.length (contents d file)) logMessage
                 (log_fault e) in
      if ok then set_disk d' w
      else Println "无法写入日志文件：" (set_disk d' w)
  end.

Definition indexHandler (cfg : Config) (e : Env) (w : World) (r : Request)
  : Outcome * World :=
  if String.eqb (Method r) "GET" then
    (Reply (Page [] (fmt.Sprintf index_page
                       [CustomHTMLHead cfg; CustomHTMLBody cfg])), w)
  else (Reply (NotFound []), w).

Definition uploadHandler (cfg : Config) (e : Env) (w : World) (r : Request)
  : Outcome * World :=
  if String.eqb (Method r) "POST" then
    match FormFile r with
    | None =>
        (Reply (Error [] "Bad Request" StatusBadRequest),
         Println "无法解析文件：" w)
    | Some (filename, data) =>
        let fileExt := filepath.Ext filename in
        let '(id, w) := generateUUID e w in
        let fileID := id ++ fileExt in
        let filePath := filepath.Join [uploadsDir; fileID] in
        match OpenFile_create (disk w) filePath with
        | Err _ =>
            (Reply (Error [] "Internal Server Error" StatusInternalServerError),
             Println "无法创建文件：" w)
        | Ok (d, f) =>
            let '(d, ok) := write_at d f 0 data (copy_fault e) in
            let w := set_disk d w in
            if negb ok then
              (Reply (Error [] "Internal Server Error"
                        StatusInternalServerError),
               Println "无法保存文件：" w)
            else
              let logMessage :=
                if LogTimestamp cfg
                then filename ++ fmt.Sprintf " [%s]" [time.Format (now e)]
                else filename in
              let w := writeLog logMessage e w in
              let fileURL := fmt.Sprintf "/file/%s" [fileID] in
              (Reply (Page [] (fmt.Sprintf upload_page
                                 [CustomHTMLHead cfg; CustomHTMLBody cfg;
                                  fileURL])), w)
        end
    end
  else (Reply (NotFound []), w).

Definition row (file : FileMetadata) : string :=
  fmt.Sprintf "<tr><td>%s</td><td>%s</td></tr>" [ID file; Filename file].

Definition listHandler (cfg : Config) (e : Env) (w : World) (r : Request)
  : Outcome * World :=
  if String.eqb (Method r) "GET" then
    match getFileList w with
    | inl _ =>
        (Reply (Error [] "Internal Server Error" StatusInternalServerError),
         Println "无法获取文件列表：" w)
    | inr files =>
        (Reply (Page [] (fmt.Sprintf list_head [] ++
                         String.concat "" (map row files) ++
                         fmt.Sprintf list_foot [])), w)
    end
  else (Reply (NotFound []), w).

(** The [err] of [_, err := os.Stat(...)]: [None] is [nil]. *)
Definition stat_error (st : result node) : option errno :=
  match st with
  | Err e => Some e
  | Ok _ => None
  end.

Section FileHandler.

(** [mime.TypeByExtension]: the table of the host, [""] for an extension
    it does not know. *)
Variable TypeByExtension : string -> string.

Definition fileHandler (cfg : Config) (e : Env) (w : World) (r : Request)
  : Outcome * World :=
  if String.eqb (Method r) "GET" then
    if Nat.ltb (String.length (URLPath r)) (String.length "/file/")
    then (Panic, w)
    else
      let fileID := drop (String.length "/file/") (URLPath r) in
      let filePath := filepath.Join [uploadsDir; fileID] in
      let err := stat_error (Stat (disk w) filePath) in
      if match err with Some e => IsNotExist e | None => false end
      then (Reply (NotFound []), w)
      else
          let filename := filepath.Base filePath in
          let h := Set_ "Content-Disposition"
                     (fmt.Sprintf ("inline; filename=" ++ dquote ++ "%s" ++ dquote)
                                  [filename]) [] in
          let contentType := TypeByExtension (filepath.Ext filename) in
          let contentType :=
            if String.eqb contentType "" then "application/octet-stream"
            else contentType in
          let h := Set_ "Content-Type" contentType h in
          (Reply (ServeFile (disk w) h r filePath), w)
  else (Reply (NotFound []), w).

(** [http.Redirect] as the mux uses it for a path that lacks the slash
    of a registered subtree. *)
Definition Redirect (r : Request) (url : string) : Response :=
  let get := String.eqb (Method r) "GET" in
  let head := String.eqb (Method r) "HEAD" in
  {| status := 301;
     header := if get || head
               then Set_ "Content-Type" "text/html; charset=utf-8"
                         (Set_ "Location" url [])
               else Set_ "Location" url [];
     body := Data (if get
                   then "<a href=" ++ dquote ++ url ++ dquote ++
                        ">Moved Permanently</a>." ++ newline ++ newline
                   else "") |}.

(** The routes of [main]: [/upload] and [/list] match exactly, [/file/]
    matches every path below it, [/] matches the rest. *)
Inductive route := RouteIndex | RouteUpload | RouteList | RouteFile.

(** The pattern a canonical path falls under; [None] for [/file], which
    the mux redirects to the subtree [/file/]. *)
Definition mux (p : string) : option route :=
  if String.eqb p "/upload" then Some RouteUpload
  else if String.eqb p "/list" then Some RouteList
  else if String.prefix "/file/" p then Some RouteFile
  else if String.eqb p "/file" then None
  else Some RouteIndex.

Definition handler (rt : route)
  : Config -> Env -> World -> Request -> Outcome * World :=
  match rt with
  | RouteIndex => indexHandler
  | RouteUpload => uploadHandler
  | RouteList => listHandler
  | RouteFile => fileHandler
  end.

(** The one method each handler answers. *)
Definition allowed (rt : route) : string :=
  match rt with
  | RouteUpload => "POST"
  | _ => "GET"
  end.

(** A request path the mux dispatches as it is.  A request (other than
    a CONNECT) whose path is not canonical is answered by the mux itself
    with a redirect to the canonical path, before any handler runs. *)
Definition canonical (p : string) : Prop := cleanPath p = p.

(** The server on one request with a canonical path: the handler of the
    pattern the path falls under.  Requests with other paths are outside
    what [serve] describes. *)
Definition serve (cfg : Config) (e : Env) (w : World) (r : Request)
  : Outcome * World :=
  match mux (URLPath r) with
  | Some rt => handler rt cfg e w r
  | None => (Reply (Redirect r "/file/"), w)
  end.

End FileHandler.

(* ================================================================= *)
(** * What the specification speaks of *)

(** A name a directory entry can bear: not empty, without a separator,
    and neither [.] nor [..]. *)
Definition valid_name (x : string) : bool :=
  negb (String.eqb x "") && negb (mem slash x) &&
  negb (String.eqb x ".") && negb (String.eqb x "..").

(** Every entry below [n] bears a valid name. *)
Fixpoint well_named (n : node) : Prop :=
  match n with
  | Dir es =>
      (fix all (es : entries) : Prop :=
         match es with
         | [] => True
         | (name, child) :: r =>
             valid_name name = true /\ well_named child /\ all r
         end) es
  | _ => True
  end.

(** Every directory below (and including) [n] can be read. *)
Fixpoint readable (n : node) : bool :=
  match n with
  | File _ => true
  | NoAccess => false
  | Dir es =>
      (fix all (es : entries) : bool :=
         match es with
         | [] => true
         | (_, child) :: r => readable child && all r
         end) es
  end.

(** The files below [n] (the entries that are not directories), each by
    its names from the storage root down, in the order of the
    directories; [at_] is where [n] itself is. *)
Fixpoint files_below (at_ : list string) (n : node) : list (list string) :=
  match n with
  | File _ => [at_]
  | NoAccess => []
  | Dir es =>
      (fix each (es : entries) : list (list string) :=
         match es with
         | [] => []
         | (name, child) :: r =>
             (files_below (at_ ++ [name]) child ++ each r)%list
         end) es
  end.

(** [reaches n names m]: from [n], the entries called [names], taken one
    after the other, lead to [m]. *)
Inductive reaches : node -> list string -> node -> Prop :=
| reaches_here (n : node) : reaches n [] n
| reaches_down (es : entries) (name : string) (child : node)
               (names : list string) (m : node) :
    In (name, child) es ->
    reaches child names m ->
    reaches (Dir es) (name :: names) m.

(** The entry the specification asks for a file: its path relative to
    the storage root as identifier, the last name of that path as
    display name. *)
Definition entry_of (names : list string) : FileMetadata :=
  {| ID := String.concat "/" names; Filename := last names "" |}.

(** The text [generateUUID] hands to its caller. *)
Definition uuid_text (e : Env) : string :=
  match uuid.NewRandom (rand e) with
  | Some u => uuid.String u
  | None => ""
  end.

(** The identifier of an upload of [filename]. *)
Definition identifier (e : Env) (filename : string) : string :=
  uuid_text e ++ filepath.Ext filename.

(** [ext] is the final dot-extension of [f]: the end of [f] from the
    last dot of its final element on, or nothing when that element has
    no dot. *)
Definition final_extension (f ext : string) : Prop :=
  (exists stem, f = stem ++ ext) /\
  match ext with
  | EmptyString => mem dot (last (split f) "") = false
  | String c x => c = dot /\ mem dot x = false /\ mem slash x = false
  end.

Definition with_xss (b : bool) (cfg : Config) : Config :=
  {| Port := Port cfg; LogTimestamp := LogTimestamp cfg;
     CustomHTMLHead := CustomHTMLHead cfg;
     CustomHTMLBody := CustomHTMLBody cfg;
     EnableXSSProtection := b |}.

Definition with_fragments (head body : string) (cfg : Config) : Config :=
  {| Port := Port cfg; LogTimestamp := LogTimestamp cfg;
     CustomHTMLHead := head;
     CustomHTMLBody := body;
     EnableXSSProtection := EnableXSSProtection cfg |}.

Definition with_log_fault (f : option nat) (e : Env) : Env :=
  {| rand := rand e; now := now e; copy_fault := copy_fault e;
     log_fault := f |}.

Definition with_rand (src : option (list Z)) (e : Env) : Env :=
  {| rand := src; now := now e; copy_fault := copy_fault e;
     log_fault := log_fault e |}.

Definition GET (path : string) : Request :=
  {| Method := "GET"; URLPath := path; FormFile := None |}.

Definition POST (path filename data : string) : Request :=
  {| Method := "POST"; URLPath := path; FormFile := Some (filename, data) |}.


Definition is_file (n : node) : bool :=
  match n with File _ => true | _ => false end.

(** [info.IsDir()] of the entry [n]. *)
Definition IsDir (n : node) : bool :=
  match n with File _ => false | Dir _ | NoAccess => true end.


(** What the file at [p] holds, [""] when there is none. *)
Definition held (d : entries) (p : string) : string :=
  match ReadFile d p with
  | Ok old => old
  | Err _ => ""
  end.

(** The disk once [data] has been copied into the opened file [f]. *)
Definition copied (d : entries) (f : fd) (data : string) : entries :=
  put_node f (File (overwrite (contents d f) 0 data)) d.

(** The paths an upload can be written to: the storage root itself (for
    an empty identifier) or an entry of it. *)
Definition under_uploads (p : string) : Prop :=
  p = "uploads" \/ exists x, valid_name x = true /\ p = "uploads/" ++ x.

(** The line an upload of [filename] is logged with. *)
Definition log_line (cfg : Config) (e : Env) (filename : string) : string :=
  if LogTimestamp cfg
  then filename ++ " [" ++ time.Format (now e) ++ "]"
  else filename.

(** The page that answers a successful upload with identifier [id]. *)
Definition success_page (cfg : Config) (id : string) : string :=
  fmt.Sprintf upload_page
    [CustomHTMLHead cfg; CustomHTMLBody cfg; "/file/" ++ id].

(** The literal of the success page cut at its verbs: [upload_page] is
    [upload_page_1 ++ "%s" ++ upload_page_2 ++ "%s" ++ upload_page_3 ++
    "%s" ++ upload_page_4]. *)
Definition upload_page_1 : string := Eval vm_compute in
"
<!DOCTYPE html>
<html>
<head>
    <title>文件上传成功</title>
    <style>
        ".

Definition upload_page_2 : string := Eval vm_compute in
"
    </style>
</head>
<body>
    ".

Definition upload_page_3 : string := Eval vm_compute in
"
    <h1>文件上传成功</h1>
    <p>文件已上传！</p>
    <p><a href=" ++ dquote.

Definition upload_page_4 : string := Eval vm_compute in
dquote ++ ">点击这里</a>查看文件列表。</p>
</body>
</html>
".

(** [list_head] has a third percent sign, the one of [width: 100%;]
    in its style sheet: it is
    [list_head_1 ++ "%s" ++ list_head_2 ++ "%;" ++ list_head_3 ++ "%s" ++
    list_head_4]. *)
Definition list_head_1 : string := Eval vm_compute in
"
<!DOCTYPE html>
<html>
<head>
    <title>文件列表</title>
    <style>
        ".

Definition list_head_2 : string := Eval vm_compute in
"
        table {
            border-collapse: collapse;
            width: 100".

Definition list_head_3 : string := Eval vm_compute in
"
        }
        th, td {
            text-align: left;
            padding: 8px;
            border-bottom: 1px solid #ddd;
        }
        tr:hover {
            background-color: #f5f5f5;
        }
        th {
            background-color: #4CAF50;
            color: white;
        }
    </style>
</head>
<body>
    ".

Definition list_head_4 : string := Eval vm_compute in
"
    <h1>文件列表</h1>
    <table>
        <tr>
            <th>ID</th>
            <th>文件名</th>
        </tr>
".


(** [index_page] is
    [index_page_1 ++ "%s" ++ index_page_2 ++ "%s" ++ index_page_3]. *)
Definition index_page_1 : string := Eval vm_compute in
"
<!DOCTYPE html>
<html>
<head>
    <title>文件上传</title>
    <style>
        ".

Definition index_page_2 : string := Eval vm_compute in
"
    </style>
</head>
<body>
    ".

Definition index_page_3 : string := Eval vm_compute in
"
    <h1>文件上传</h1>
    <form action=" ++ dquote ++ "/upload" ++ dquote ++ " method=" ++ dquote ++ "post" ++ dquote ++ " enctype=" ++ dquote ++ "multipart/form-data" ++ dquote ++ ">
        <input type=" ++ dquote ++ "file" ++ dquote ++ " name=" ++ dquote ++ "file" ++ dquote ++ " id=" ++ dquote ++ "file" ++ dquote ++ ">
        <input type=" ++ dquote ++ "submit" ++ dquote ++ " value=" ++ dquote ++ "上传" ++ dquote ++ ">
    </form>
    <br>
    <a href=" ++ dquote ++ "/list" ++ dquote ++ ">查看文件列表</a>
</body>
</html>
".

(** The path [fileHandler] resolves a request to, and the two headers
    it sets before it serves. *)
Definition resolved (r : Request) : string :=
  filepath.Join [uploadsDir; drop (String.length "/file/") (URLPath r)].

Definition disposition (r : Request) : string :=
  "inline; filename=" ++ dquote ++ filepath.Base (resolved r) ++ dquote.

Definition content_type (TypeByExtension : string -> string) (r : Request)
  : string :=
  let t := TypeByExtension (filepath.Ext (filepath.Base (resolved r))) in
  if String.eqb t "" then "application/octet-stream" else t.

Definition file_headers (TypeByExtension : string -> string) (r : Request)
  : Header :=
  Set_ "Content-Type" (content_type TypeByExtension r)
    (Set_ "Content-Disposition" (disposition r) []).

(** The paths of a route. *)
Definition route_path (rt : route) (p : string) : Prop :=
  match rt with
  | RouteIndex => p = "/"
  | RouteUpload => p = "/upload"
  | RouteList => p = "/list"
  | RouteFile => exists id, p = "/file/" ++ id
  end.

Definition status_of (o : Outcome) : option nat :=
  match o with
  | Reply resp => Some (status resp)
  | Panic => None
  end.

(** ** The claims that do not hold as they are worded *)

(** Every file below the storage root has its entry in the list, in
    whatever state the directory is. *)
Definition lists_every_file (w : World) : Prop :=
  forall root names,
    lookup uploadsDir (disk w) = Some root ->
    In names (files_below [] root) ->
    exists files, getFileList w = inr files /\ In (entry_of names) files.



(** After a successful upload the file on disk holds exactly the bytes
    uploaded. *)
Definition stores_exactly (cfg : Config) (e : Env) (w : World) (r : Request)
  : Prop :=
  forall filename data resp w',
    FormFile r = Some (filename, data) ->
    uploadHandler cfg e w r = (Reply resp, w') ->
    status resp = 200 ->
    ReadFile (disk w') (filepath.Join [uploadsDir; identifier e filename])
    = Ok data.

(** The line feed, as a byte, and the number of lines of a text: the
    line feeds in it. *)
Definition line_feed : ascii := ascii_of_nat 10.

Fixpoint count (c : ascii) (s : string) : nat :=
  match s with
  | EmptyString => 0
  | String d r => (if Ascii.eqb d c then 1 else 0) + count c r
  end.

(** A completed upload, with a log that can be written, leaves the log
    one line longer. *)
Definition appends_one_line (cfg : Config) (e : Env) (w : World)
           (r : Request) : Prop :=
  forall filename data resp w' old new,
    FormFile r = Some (filename, data) ->
    uploadHandler cfg e w r = (Reply resp, w') ->
    status resp = 200 ->
    log_fault e = None ->
    lookup logFileName (disk w) = Some (File old) ->
    lookup logFileName (disk w') = Some (File new) ->
    count line_feed new = S (count line_feed old).




(** The diagnostics the handlers print. *)
Definition uuid_failed : string := "无法生成UUID：".
Definition log_failed : string := "无法写入日志文件：".
Definition list_failed : string := "无法获取文件列表：".
Definition parse_failed : string := "无法解析文件：".
Definition create_failed : string := "无法创建文件：".
Definition save_failed : string := "无法保存文件：".

(** ** Sample data *)

(** The types built into Go's [mime] package, as a host that knows no
    others would answer. *)
Definition builtin_types (ext : string) : string :=
  if String.eqb ext ".css" then "text/css; charset=utf-8"
  else if String.eqb ext ".gif" then "image/gif"
  else if String.eqb ext ".htm" then "text/html; charset=utf-8"
  else if String.eqb ext ".html" then "text/html; charset=utf-8"
  else if String.eqb ext ".jpeg" then "image/jpeg"
  else if String.eqb ext ".jpg" then "image/jpeg"
  else if String.eqb ext ".js" then "text/javascript; charset=utf-8"
  else if String.eqb ext ".json" then "application/json"
  else if String.eqb ext ".pdf" then "application/pdf"
  else if String.eqb ext ".png" then "image/png"
  else if String.eqb ext ".svg" then "image/svg+xml"
  else if String.eqb ext ".wasm" then "application/wasm"
  else if String.eqb ext ".webp" then "image/webp"
  else if String.eqb ext ".xml" then "text/xml; charset=utf-8"
  else "".

Definition sample_cfg : Config :=
  {| Port := 8080; LogTimestamp := true;
     CustomHTMLHead := "body { margin: 2em; }";
     CustomHTMLBody := "<p>hello</p>";
     EnableXSSProtection := false |}.

Definition sample_time : time.Time :=
  {| time.year := 2024; time.month := 3; time.day := 9;
     time.hour := 7; time.minute := 5; time.second := 42 |}.

(** A request environment in which everything works. *)
Definition sample_env : Env :=
  {| rand := Some (map Z.of_nat (seq 1 16)); now := sample_time;
     copy_fault := None; log_fault := None |}.

(** One in which the random source fails. *)
Definition dry_env : Env := with_rand None sample_env.

(** A fresh storage directory. *)
Definition empty_world : World :=
  {| disk := [("uploads", Dir [])]; console := [] |}.

(** A storage directory with files at three depths. *)
Definition nested_entries : entries :=
  [("a.txt", File "hello");
   ("sub", Dir [("b.pdf", File "%PDF");
                ("deep", Dir [("c", File "")])])].

Definition nested_world : World :=
  {| disk := [("log.txt", File ""); ("uploads", Dir nested_entries)];
     console := [] |}.

(** A working directory as [main] finds it: the configuration file, a
    log and the storage directory. *)
Definition home_world : World :=
  {| disk := [("config.yml", File "port: 8080");
              ("log.txt", File "old.txt
");
              ("uploads", Dir [("old.txt", File "old")])];
     console := [] |}.

(** A working directory without storage directory. *)
Definition bare_world : World := {| disk := []; console := [] |}.

(** A working directory in which [log.txt] is a directory. *)
Definition log_dir_world : World :=
  {| disk := [("log.txt", Dir []); ("uploads", Dir [])]; console := [] |}.

(** A storage directory with a file and a subdirectory of mode 000. *)
Definition locked_world : World :=
  {| disk := [("uploads", Dir [("a.txt", File "hello");
                               ("private", NoAccess)])];
     console := [] |}.


(** A file name of two lines, as a client can send one in the
    [filename*] parameter of the form. *)
Definition two_line_name : string :=
  "a.txt" ++ newline ++ "forged-entry.txt".


(** Induction on a tree, with the property in hand for every entry of
    a directory. *)
Section NodeInduction.
Variable P : node -> Prop.
Hypothesis HFile : forall data, P (File data).
Hypothesis HNoAccess : P NoAccess.
Hypothesis HDir : forall es, Forall (fun e => P (snd e)) es -> P (Dir es).

Fixpoint node_induction (n : node) : P n :=
  match n with
  | File data => HFile data
  | NoAccess => HNoAccess
  | Dir es =>
      HDir es
        ((fix all (es : entries) : Forall (fun e => P (snd e)) es :=
            match es with
            | [] => Forall_nil _
            | (name, child) :: r =>
                Forall_cons (name, child) (node_induction child) (all r)
            end) es)
  end.
End NodeInduction.

(* ================================================================= *)
(** * Facts about the models *)

(* ================================================================= *)
(** * Facts about byte strings *)

Section StringFacts.

Lemma append_nil_r (s : string) : s ++ "" = s.
Proof. induction s as [|c s IH]; simpl; [reflexivity | now rewrite IH]. Qed.

Lemma append_assoc (a b c : string) : (a ++ b) ++ c = a ++ (b ++ c).
Proof. induction a as [|x a IH]; simpl; [reflexivity | now rewrite IH]. Qed.

Lemma length_append (a b : string) :
  String.length (a ++ b) = String.length a + String.length b.
Proof. induction a as [|x a IH]; simpl; [reflexivity | now rewrite IH]. Qed.

Lemma mem_append (c : ascii) (a b : string) :
  mem c (a ++ b) = mem c a || mem c b.
Proof.
  induction a as [|x a IH]; simpl; [reflexivity|].
  rewrite IH. now rewrite orb_assoc.
Qed.

Lemma split_not_nil (s : string) : split s <> [].
Proof.
  induction s as [|c s IH]; simpl; [discriminate|].
  destruct (Ascii.eqb c slash); [discriminate|].
  destruct (split s); [contradiction | discriminate].
Qed.

(** A string without separator is its own single piece. *)
Lemma split_plain (s : string) : mem slash s = false -> split s = [s].
Proof.
  induction s as [|c s IH]; simpl; [reflexivity|].
  destruct (Ascii.eqb c slash); simpl; [discriminate|].
  intros H. now rewrite (IH H).
Qed.

Lemma split_append (a b : string) :
  mem slash a = false ->
  split (a ++ String slash b) = a :: split b.
Proof.
  induction a as [|c a IH]; simpl; [reflexivity|].
  destruct (Ascii.eqb c slash); simpl; [discriminate|].
  intros H. now rewrite (IH H).
Qed.

(** Splitting undoes joining, for pieces without separators. *)
Lemma split_concat (l : list string) :
  l <> [] -> Forall (fun x => mem slash x = false) l ->
  split (String.concat "/" l) = l.
Proof.
  induction l as [|x l IH]; [congruence|].
  intros _ H. inversion H as [|? ? Hx Hl]; subst.
  destruct l as [|y l]; simpl.
  - now apply split_plain.
  - rewrite split_append by assumption.
    f_equal. apply IH; [discriminate | assumption].
Qed.

Lemma concat_snoc (l : list string) (x : string) :
  l <> [] ->
  String.concat "/" l ++ "/" ++ x = String.concat "/" (l ++ [x]).
Proof.
  induction l as [|y l IH]; [congruence|]. intros _.
  destruct l as [|z l].
  - reflexivity.
  - change (String.concat "/" (y :: z :: l))
      with (y ++ "/" ++ String.concat "/" (z :: l)).
    change (String.concat "/" ((y :: z :: l) ++ [x]))
      with (y ++ "/" ++ String.concat "/" ((z :: l) ++ [x])).
    rewrite <- IH by discriminate.
    now rewrite !append_assoc.
Qed.

Lemma trim_slashes_plain (s : string) :
  mem slash s = false -> trim_slashes s = s.
Proof.
  induction s as [|c s IH]; simpl; [reflexivity|].
  destruct (Ascii.eqb c slash) eqn:E; simpl; [discriminate|].
  intros H. rewrite (IH H). destruct s; reflexivity.
Qed.

Lemma trim_slashes_append (a b : string) :
  b <> "" -> trim_slashes b = b -> trim_slashes (a ++ b) = a ++ b.
Proof.
  intros Hb Hfix. induction a as [|c a IH]; simpl; [assumption|].
  rewrite IH. destruct (a ++ b) eqn:E; [|reflexivity].
  destruct a; simpl in E; [congruence | discriminate].
Qed.

Lemma has_suffix_append (a s : string) : has_suffix (a ++ s) s = true.
Proof.
  induction a as [|c a IH]; simpl.
  - destruct s; simpl; [reflexivity|].
    now rewrite Ascii.eqb_refl, String.eqb_refl.
  - rewrite IH. apply orb_true_r.
Qed.

Lemma prefix_append (a b : string) : String.prefix a (a ++ b) = true.
Proof.
  induction a as [|c a IH]; simpl; [now destruct b|].
  destruct (ascii_dec c c); [assumption | congruence].
Qed.

Lemma contains_prefix (s sub : string) :
  String.prefix sub s = true -> contains s sub = true.
Proof. destruct s; simpl; intros ->; reflexivity. Qed.

Lemma contains_append (a s b : string) : contains (a ++ s ++ b) s = true.
Proof.
  induction a as [|c a IH].
  - change ("" ++ s ++ b) with (s ++ b). apply contains_prefix, prefix_append.
  - simpl. rewrite IH. apply orb_true_r.
Qed.

Lemma drop_append (a b : string) : drop (String.length a) (a ++ b) = b.
Proof. induction a as [|c a IH]; simpl; [now destruct b | assumption]. Qed.

Lemma take_append (a b : string) : take (String.length a) (a ++ b) = a.
Proof. induction a as [|c a IH]; simpl; [reflexivity | now rewrite IH]. Qed.

Lemma take_all (a : string) : take (String.length a) a = a.
Proof. induction a as [|c a IH]; simpl; [reflexivity | now rewrite IH]. Qed.

Lemma drop_all (a : string) : drop (String.length a) a = "".
Proof. induction a as [|c a IH]; simpl; [reflexivity | assumption]. Qed.

End StringFacts.

(* ================================================================= *)
(** * Facts about [filepath] on valid names *)

Section PathFacts.

Lemma valid_name_inv (x : string) :
  valid_name x = true ->
  x <> "" /\ mem slash x = false /\ x <> "." /\ x <> "..".
Proof.
  unfold valid_name. rewrite !andb_true_iff, !negb_true_iff.
  intros [[[H1 H2] H3] H4].
  repeat split; try assumption; now apply String.eqb_neq.
Qed.

Lemma valid_uploadsDir : valid_name uploadsDir = true.
Proof. reflexivity. Qed.

Lemma valid_no_slash (l : list string) :
  Forall (fun x => valid_name x = true) l ->
  Forall (fun x => mem slash x = false) l.
Proof.
  intros H. eapply Forall_impl; [|exact H].
  intros x Hx. now apply valid_name_inv in Hx.
Qed.

Lemma clean_elem_valid (r : bool) (out : list string) (x : string) :
  valid_name x = true -> filepath.clean_elem r out x = x :: out.
Proof.
  intros H. apply valid_name_inv in H. destruct H as (H1 & _ & H3 & H4).
  unfold filepath.clean_elem.
  apply String.eqb_neq in H1, H3, H4. now rewrite H1, H3, H4.
Qed.

Lemma fold_clean_valid (r : bool) (l out : list string) :
  Forall (fun x => valid_name x = true) l ->
  fold_left (filepath.clean_elem r) l out = (rev l ++ out)%list.
Proof.
  revert out. induction l as [|x l IH]; intros out H; [reflexivity|].
  inversion H; subst. simpl.
  rewrite clean_elem_valid by assumption.
  rewrite IH by assumption. now rewrite <- app_assoc.
Qed.

Lemma concat_cons_head (x : string) (l : list string) :
  exists rest, String.concat "/" (x :: l) = x ++ rest.
Proof.
  destruct l as [|y l].
  - exists "". simpl. now rewrite append_nil_r.
  - now exists ("/" ++ String.concat "/" (y :: l)).
Qed.

Lemma rooted_valid (x rest : string) :
  valid_name x = true -> filepath.rooted (x ++ rest) = false.
Proof.
  intros H. apply valid_name_inv in H. destruct H as (H1 & H2 & _).
  destruct x as [|c x]; [congruence|]. simpl in *.
  now apply orb_false_iff in H2.
Qed.

Lemma append_not_empty (x rest : string) : x <> "" -> x ++ rest <> "".
Proof. destruct x; [congruence | discriminate]. Qed.

(** A path made of valid names is clean already. *)
Lemma Clean_concat (l : list string) :
  l <> [] -> Forall (fun x => valid_name x = true) l ->
  filepath.Clean (String.concat "/" l) = String.concat "/" l.
Proof.
  intros Hne Hl. destruct l as [|x l]; [congruence|].
  destruct (concat_cons_head x l) as [rest E].
  assert (Hx : valid_name x = true) by now inversion Hl.
  unfold filepath.Clean.
  assert (Hnot : String.concat "/" (x :: l) <> "").
  { rewrite E. apply append_not_empty. now apply valid_name_inv in Hx. }
  apply String.eqb_neq in Hnot. rewrite Hnot.
  replace (filepath.rooted (String.concat "/" (x :: l))) with false
    by (rewrite E; symmetry; now apply rooted_valid).
  rewrite split_concat by (try discriminate; now apply valid_no_slash).
  rewrite fold_clean_valid by assumption.
  rewrite app_nil_r.
  destruct (rev (x :: l)) eqn:R.
  - apply (f_equal (@List.length _)) in R. rewrite length_rev in R.
    discriminate.
  - rewrite <- R, rev_involutive. reflexivity.
Qed.

(** [filepath.Join] of such a path and one more valid name. *)
Lemma Join_child (l : list string) (x : string) :
  l <> [] -> Forall (fun x => valid_name x = true) l ->
  valid_name x = true ->
  filepath.Join [String.concat "/" l; x] = String.concat "/" (l ++ [x]).
Proof.
  intros Hne Hl Hx. unfold filepath.Join.
  assert (Hnot : String.concat "/" l <> "").
  { destruct l as [|y l]; [congruence|].
    destruct (concat_cons_head y l) as [rest E]. rewrite E.
    apply append_not_empty. inversion Hl; subst.
    match goal with H : valid_name y = true |- _ =>
      now apply valid_name_inv in H end. }
  apply String.eqb_neq in Hnot. rewrite Hnot.
  change (String.concat "/" [String.concat "/" l; x])
    with (String.concat "/" l ++ "/" ++ x).
  rewrite concat_snoc by assumption.
  apply Clean_concat.
  - destruct l; discriminate.
  - apply Forall_app. split; [assumption | now constructor].
Qed.

Lemma concat_inj (l l' : list string) :
  l <> [] -> l' <> [] ->
  Forall (fun x => mem slash x = false) l ->
  Forall (fun x => mem slash x = false) l' ->
  String.concat "/" l = String.concat "/" l' -> l = l'.
Proof.
  intros H1 H2 F1 F2 E.
  rewrite <- (split_concat l), <- (split_concat l') by assumption.
  now rewrite E.
Qed.

(** The path of a file below the storage root, made relative to it. *)
Lemma Rel_uploads (cs : list string) :
  cs <> [] -> Forall (fun x => valid_name x = true) cs ->
  filepath.Rel uploadsDir (String.concat "/" (uploadsDir :: cs))
  = Some (String.concat "/" cs).
Proof.
  intros Hne Hcs.
  assert (Hall : Forall (fun x => valid_name x = true) (uploadsDir :: cs))
    by (constructor; [reflexivity | assumption]).
  unfold filepath.Rel.
  rewrite Clean_concat by (try discriminate; assumption).
  change (filepath.Clean uploadsDir) with "uploads".
  assert (Hdiff : String.concat "/" (uploadsDir :: cs) <> "uploads").
  { intros E. apply (concat_inj (uploadsDir :: cs) [uploadsDir]) in E;
      try discriminate.
    - inversion E. subst. congruence.
    - now apply valid_no_slash.
    - repeat constructor. }
  apply String.eqb_neq in Hdiff. rewrite Hdiff.
  change (String.eqb "uploads" ".") with false. cbv iota.
  destruct (concat_cons_head uploadsDir cs) as [rest E].
  replace (filepath.rooted (String.concat "/" (uploadsDir :: cs)))
    with false by (rewrite E; reflexivity).
  change (negb (Bool.eqb (filepath.rooted "uploads") false)) with false.
  cbv iota.
  unfold filepath.elems at 2.
  assert (H0 : String.concat "/" (uploadsDir :: cs) <> "")
    by (rewrite E; discriminate).
  assert (H1 : String.concat "/" (uploadsDir :: cs) <> "/")
    by (rewrite E; discriminate).
  apply String.eqb_neq in H0, H1. rewrite H0, H1.
  rewrite split_concat by (try discriminate; now apply valid_no_slash).
  change (filepath.elems "uploads") with [uploadsDir].
  unfold uploadsDir. cbn [filepath.strip_common String.eqb Ascii.eqb Bool.eqb].
  destruct cs; [congruence | reflexivity].
Qed.

Lemma last_cons_ne (A : Type) (x d : A) (l : list A) :
  l <> [] -> last (x :: l) d = last l d.
Proof. destruct l; [congruence | reflexivity]. Qed.

Lemma concat_last (l : list string) :
  l <> [] -> exists front, String.concat "/" l = front ++ last l "".
Proof.
  induction l as [|x l IH]; [congruence|]. intros _.
  destruct l as [|y l].
  - now exists "".
  - destruct IH as [front E]; [discriminate|].
    exists (x ++ "/" ++ front).
    change (String.concat "/" (x :: y :: l))
      with (x ++ "/" ++ String.concat "/" (y :: l)).
    rewrite E, !append_assoc. reflexivity.
Qed.

(** The base name of a relative path of valid names is its last name. *)
Lemma Base_concat (cs : list string) :
  cs <> [] -> Forall (fun x => valid_name x = true) cs ->
  filepath.Base (String.concat "/" cs) = last cs "".
Proof.
  intros Hne Hcs.
  assert (Hlast : valid_name (last cs "") = true).
  { rewrite Forall_forall in Hcs. apply Hcs.
    destruct cs; [congruence|]. apply (@exists_last _ (s :: cs)) in Hne.
    destruct Hne as (l' & a & E). rewrite E.
    rewrite last_last. apply in_or_app. right. now left. }
  apply valid_name_inv in Hlast. destruct Hlast as (L1 & L2 & _).
  destruct (concat_last cs Hne) as [front E].
  assert (Hnot : String.concat "/" cs <> "").
  { rewrite E. destruct front; simpl; [assumption | discriminate]. }
  unfold filepath.Base.
  apply String.eqb_neq in Hnot. rewrite Hnot.
  assert (T : trim_slashes (String.concat "/" cs) = String.concat "/" cs).
  { rewrite E. apply trim_slashes_append; [assumption|].
    now apply trim_slashes_plain. }
  rewrite T, Hnot.
  rewrite split_concat by (try assumption; now apply valid_no_slash).
  reflexivity.
Qed.

End PathFacts.

(* ================================================================= *)
(** * The walk of the storage directory *)

Section WalkFacts.

Lemma visit_dir (path : string) (files : list FileMetadata) :
  visit path true None files = inr files.
Proof. reflexivity. Qed.

Lemma visit_file (cs : list string) (files : list FileMetadata) :
  cs <> [] -> Forall (fun x => valid_name x = true) cs ->
  visit (String.concat "/" (uploadsDir :: cs)) false None files
  = inr (files ++ [entry_of cs])%list.
Proof.
  intros Hne Hcs. unfold visit. cbn [negb].
  rewrite Rel_uploads by assumption.
  unfold entry_of. now rewrite Base_concat.
Qed.

(** What [walk] does below the storage root: every regular file gets
    its entry, in order, unless a directory on the way cannot be
    read. *)
Lemma walk_below (n : node) :
  forall (cs : list string) (files : list FileMetadata),
    (is_file n = true -> cs <> []) ->
    Forall (fun x => valid_name x = true) cs ->
    well_named n ->
    walk _ _ visit (String.concat "/" (uploadsDir :: cs)) n files
    = if readable n
      then inr (files ++ map entry_of (files_below cs n))%list
      else inl (PathError EACCES).
Proof.
  induction n as [data| |es IH] using node_induction;
    intros cs files Hfile Hcs Hwf.
  - simpl. apply visit_file; [now apply Hfile | assumption].
  - reflexivity.
  - cbn [walk]. rewrite visit_dir.
    cbn [readable files_below].
    clear Hfile. revert files Hwf.
    induction IH as [|[name child] r Hchild _ IHr]; intros files Hwf.
    + now rewrite app_nil_r.
    + cbn [well_named] in Hwf. destruct Hwf as (Hname & Hwfc & Hwfr).
      assert (Hup : Forall (fun x => valid_name x = true) (uploadsDir :: cs))
        by (constructor; [reflexivity | assumption]).
      rewrite (Join_child (uploadsDir :: cs) name) by
        (discriminate || assumption).
      change ((uploadsDir :: cs) ++ [name])%list
        with (uploadsDir :: (cs ++ [name]))%list.
      cbn [snd] in Hchild.
      rewrite Hchild;
        [ | intros _; now destruct cs
          | apply Forall_app; split; [assumption | now constructor]
          | assumption ].
      destruct (readable child); [|reflexivity].
      rewrite (IHr _ Hwfr).
      cbn [andb].
      match goal with
      | |- (if ?b then _ else _) = _ => destruct b; [|reflexivity]
      end.
      now rewrite map_app, app_assoc.
Qed.

Lemma Stat_top (d : entries) (name : string) :
  valid_name name = true ->
  Stat d name = match lookup name d with
                | Some n => Ok n
                | None => Err ENOENT
                end.
Proof.
  intros H. pose proof (valid_name_inv _ H) as (H1 & H2 & H3 & H4).
  unfold Stat, namei.
  apply String.eqb_neq in H1, H3, H4. rewrite H1.
  rewrite split_plain by assumption.
  cbn [locate rev get_node app]. rewrite H1, H3, H4. cbn [orb].
  cbn [locate rev app get_node].
  destruct (lookup name d); reflexivity.
Qed.

(** [getFileList] on a storage directory: the entries of the regular
    files below it, or the error of the first directory that cannot be
    read. *)
Lemma getFileList_dir (w : World) (root : node) :
  lookup uploadsDir (disk w) = Some root ->
  is_file root = false ->
  well_named root ->
  getFileList w
  = if readable root
    then inr (map entry_of (files_below [] root))
    else inl (PathError EACCES).
Proof.
  intros Hroot Hdir Hwf. unfold getFileList, Walk.
  rewrite Stat_top by reflexivity. rewrite Hroot.
  change uploadsDir with (String.concat "/" (uploadsDir :: [])) at 1.
  rewrite walk_below; try assumption; [reflexivity | | constructor].
  intros H. congruence.
Qed.

End WalkFacts.

(* ================================================================= *)
(** * The identifier of an upload *)

Section IdentifierFacts.

Lemma from_last_dot_shape (s : string) :
  match filepath.from_last_dot s with
  | EmptyString => mem dot s = false
  | String c x =>
      c = dot /\ mem dot x = false /\ exists stem, s = stem ++ String c x
  end.
Proof.
  induction s as [|c s IH]; [reflexivity|].
  cbn [filepath.from_last_dot]. destruct (filepath.from_last_dot s) eqn:E.
  - destruct (Ascii.eqb c dot) eqn:D.
    + apply Ascii.eqb_eq in D. repeat split; try assumption. now exists "".
    + cbn [mem]. now rewrite D.
  - destruct IH as (Hc & Hx & stem & Hs).
    repeat split; try assumption.
    exists (String c stem). cbn [append]. now rewrite <- Hs.
Qed.

Lemma concat_cons_char (c : ascii) (h : string) (t : list string) :
  String.concat "/" (String c h :: t) = String c (String.concat "/" (h :: t)).
Proof. destruct t; reflexivity. Qed.

(** Joining the pieces of a string gives the string back. *)
Lemma concat_split (s : string) : String.concat "/" (split s) = s.
Proof.
  induction s as [|c s IH]; [reflexivity|].
  cbn [split]. destruct (Ascii.eqb c slash) eqn:E.
  - apply Ascii.eqb_eq in E. subst c.
    pose proof (split_not_nil s) as Hne.
    destruct (split s) as [|h t] eqn:S; [congruence|].
    change (String.concat "/" ("" :: h :: t))
      with ("" ++ "/" ++ String.concat "/" (h :: t)).
    rewrite IH. reflexivity.
  - pose proof (split_not_nil s) as Hne.
    destruct (split s) as [|h t] eqn:S; [congruence|].
    rewrite concat_cons_char. now rewrite IH.
Qed.

Lemma split_no_slash (s : string) :
  Forall (fun x => mem slash x = false) (split s).
Proof.
  induction s as [|c s IH]; [repeat constructor|].
  cbn [split]. destruct (Ascii.eqb c slash) eqn:E.
  - constructor; [reflexivity | assumption].
  - destruct (split s) as [|h t]; [repeat constructor; cbn [mem];
                                   now rewrite E|].
    inversion IH; subst. constructor; [|assumption].
    cbn [mem]. rewrite E. assumption.
Qed.

Lemma mem_suffix (c : ascii) (a b : string) :
  mem c (a ++ b) = false -> mem c b = false.
Proof. rewrite mem_append. now intros [_ H]%orb_false_iff. Qed.

Lemma last_split (s : string) :
  (exists stem, s = stem ++ last (split s) "") /\
  mem slash (last (split s) "") = false.
Proof.
  split.
  - destruct (concat_last (split s) (split_not_nil s)) as [front E].
    exists front. now rewrite <- E, concat_split.
  - pose proof (split_no_slash s) as H. rewrite Forall_forall in H.
    apply H. pose proof (split_not_nil s) as Hne.
    destruct (@exists_last _ (split s) Hne) as (l & a & E).
    rewrite E, last_last. apply in_or_app. right. now left.
Qed.

(** [filepath.Ext] gives the final dot-extension. *)
Lemma Ext_final (f : string) : final_extension f (filepath.Ext f).
Proof.
  unfold final_extension, filepath.Ext.
  destruct (last_split f) as [[stem Hstem] Hslash].
  pose proof (from_last_dot_shape (last (split f) "")) as Hshape.
  destruct (filepath.from_last_dot (last (split f) "")) as [|c x] eqn:E.
  - split; [|assumption]. exists f. now rewrite append_nil_r.
  - destruct Hshape as (Hc & Hx & stem' & Hs).
    split.
    + exists (stem ++ stem'). rewrite append_assoc, <- Hs. assumption.
    + repeat split; try assumption.
      rewrite Hs in Hslash. apply mem_suffix in Hslash.
      cbn [mem] in Hslash. now apply orb_false_iff in Hslash.
Qed.

Lemma Ext_no_slash (f : string) : mem slash (filepath.Ext f) = false.
Proof.
  pose proof (Ext_final f) as [_ H].
  destruct (filepath.Ext f) as [|c x]; [reflexivity|].
  destruct H as (-> & _ & Hx). cbn [mem]. now rewrite Hx.
Qed.

Lemma Ext_not_dotdot (f : string) : filepath.Ext f <> "..".
Proof.
  pose proof (Ext_final f) as [_ H]. intros E. rewrite E in H.
  destruct H as (_ & H & _). discriminate.
Qed.

Lemma hextable_chars (k : nat) (c : ascii) :
  String.get k uuid.hextable = Some c -> c <> slash /\ c <> dot.
Proof.
  unfold uuid.hextable.
  do 16 (destruct k as [|k];
         [cbn; intros [= <-]; split; discriminate|]).
  cbn. discriminate.
Qed.

Lemma hex_digit_plain (n : Z) :
  uuid.hex_digit n <> slash /\ uuid.hex_digit n <> dot.
Proof.
  unfold uuid.hex_digit.
  destruct (String.get _ uuid.hextable) eqn:E.
  - eapply hextable_chars; eassumption.
  - split; discriminate.
Qed.

Lemma hex_encode_no_slash (bs : list Z) :
  mem slash (uuid.hex_encode bs) = false.
Proof.
  induction bs as [|b bs IH]; [reflexivity|].
  cbn [uuid.hex_encode mem]. rewrite IH.
  destruct (hex_digit_plain (Z.shiftr b 4)) as [H1 _].
  destruct (hex_digit_plain b) as [H2 _].
  apply Ascii.eqb_neq in H1, H2. now rewrite H1, H2.
Qed.

Lemma uuid_String_no_slash (u : uuid.UUID) :
  mem slash (uuid.String u) = false.
Proof.
  unfold uuid.String. rewrite !mem_append, !hex_encode_no_slash.
  reflexivity.
Qed.

(** The text of a UUID starts with a hexadecimal digit or a dash. *)
Lemma uuid_String_head (u : uuid.UUID) :
  exists c rest, uuid.String u = String c rest /\ c <> dot.
Proof.
  unfold uuid.String.
  destruct (firstn 4 u) as [|b bs].
  - cbn. eexists _, _. split; [reflexivity | discriminate].
  - cbn [uuid.hex_encode append]. eexists _, _. split; [reflexivity|].
    apply hex_digit_plain.
Qed.

Lemma uuid_text_no_slash (e : Env) : mem slash (uuid_text e) = false.
Proof.
  unfold uuid_text. destruct (uuid.NewRandom (rand e)); [|reflexivity].
  apply uuid_String_no_slash.
Qed.

Lemma identifier_no_slash (e : Env) (filename : string) :
  mem slash (identifier e filename) = false.
Proof.
  unfold identifier.
  now rewrite mem_append, uuid_text_no_slash, Ext_no_slash.
Qed.

Lemma identifier_not_dotdot (e : Env) (filename : string) :
  identifier e filename <> "..".
Proof.
  unfold identifier, uuid_text.
  destruct (uuid.NewRandom (rand e)) as [u|].
  - destruct (uuid_String_head u) as (c & rest & -> & Hc).
    cbn [append]. intros [= E _]. now apply Hc.
  - apply Ext_not_dotdot.
Qed.

Lemma generateUUID_text (e : Env) (w : World) :
  fst (generateUUID e w) = uuid_text e.
Proof.
  unfold generateUUID, uuid_text.
  now destruct (uuid.NewRandom (rand e)).
Qed.

Lemma generateUUID_disk (e : Env) (w : World) :
  disk (snd (generateUUID e w)) = disk w.
Proof.
  unfold generateUUID. now destruct (uuid.NewRandom (rand e)).
Qed.

End IdentifierFacts.

(* ================================================================= *)
(** * Paths at and just below the storage root *)

Section TreeFacts.

Lemma plain_name_cases (x : string) :
  mem slash x = false ->
  x = "" \/ x = "." \/ x = ".." \/ valid_name x = true.
Proof.
  intros H. unfold valid_name. rewrite H.
  destruct (String.eqb_spec x ""); [now left|].
  destruct (String.eqb_spec x "."); [now right; left|].
  destruct (String.eqb_spec x ".."); [now right; right; left|].
  now right; right; right.
Qed.

(** [filepath.Join] of the storage root and a name without separator. *)
Lemma Join_plain (x : string) :
  mem slash x = false ->
  filepath.Join [uploadsDir; x] =
  if String.eqb x "" || String.eqb x "." then "uploads"
  else if String.eqb x ".." then "."
  else "uploads/" ++ x.
Proof.
  intros H. unfold filepath.Join, uploadsDir.
  change (String.eqb "uploads" "") with false. cbv iota.
  change (String.concat "/" ["uploads"; x]) with ("uploads" ++ String slash x).
  unfold filepath.Clean.
  rewrite split_append by reflexivity. rewrite split_plain by assumption.
  change (String.eqb ("uploads" ++ String slash x) "") with false.
  change (filepath.rooted ("uploads" ++ String slash x)) with false.
  cbv iota.
  cbn [fold_left]. change (filepath.clean_elem false [] "uploads")
    with ["uploads"].
  unfold filepath.clean_elem.
  destruct (String.eqb x "" || String.eqb x "."); [reflexivity|].
  destruct (String.eqb x ".."); reflexivity.
Qed.

Lemma Join_valid (x : string) :
  valid_name x = true -> filepath.Join [uploadsDir; x] = "uploads/" ++ x.
Proof.
  intros H. pose proof (valid_name_inv _ H) as (H1 & H2 & H3 & H4).
  rewrite Join_plain by assumption.
  apply String.eqb_neq in H1, H3, H4. now rewrite H1, H3, H4.
Qed.

Lemma lookup_put_entry_same (k : string) (n : node) (es : entries) :
  lookup k (put_entry k n es) = Some n.
Proof.
  induction es as [|[k' v] r IH]; cbn [put_entry lookup].
  - now rewrite String.eqb_refl.
  - destruct (String.eqb k' k) eqn:E.
    + cbn [lookup]. now rewrite String.eqb_refl.
    + destruct (String.ltb k k'); cbn [lookup].
      * now rewrite String.eqb_refl.
      * now rewrite E.
Qed.

Lemma lookup_put_entry_other (k k' : string) (n : node) (es : entries) :
  k' <> k -> lookup k' (put_entry k n es) = lookup k' es.
Proof.
  intros Hne. apply String.eqb_neq in Hne. rewrite String.eqb_sym in Hne.
  induction es as [|[k0 v] r IH]; cbn [put_entry lookup].
  - now rewrite Hne.
  - destruct (String.eqb k0 k) eqn:E.
    + cbn [lookup]. rewrite Hne. apply String.eqb_eq in E. subst k0.
      now rewrite Hne.
    + destruct (String.ltb k k0); cbn [lookup].
      * now rewrite Hne.
      * now rewrite IH.
Qed.

Lemma namei_top (d : entries) (name : string) :
  valid_name name = true -> namei d name = Ok [name].
Proof.
  intros H. pose proof (valid_name_inv _ H) as (H1 & H2 & H3 & H4).
  unfold namei.
  apply String.eqb_neq in H1, H3, H4. rewrite H1.
  rewrite split_plain by assumption.
  cbn [locate rev get_node app]. rewrite H1, H3, H4. reflexivity.
Qed.

Lemma namei_child (d : entries) (x : string) :
  valid_name x = true ->
  namei d ("uploads/" ++ x) =
  match lookup uploadsDir d with
  | Some (Dir _) => Ok [uploadsDir; x]
  | Some (File _) => Err ENOTDIR
  | Some NoAccess => Err EACCES
  | None => Err ENOENT
  end.
Proof.
  intros H. pose proof (valid_name_inv _ H) as (H1 & H2 & H3 & H4).
  unfold namei.
  change (String.eqb ("uploads/" ++ x) "") with false. cbv iota.
  change ("uploads/" ++ x) with ("uploads" ++ String slash x).
  rewrite split_append by reflexivity. rewrite split_plain by assumption.
  cbn [locate rev get_node app].
  change (String.eqb "uploads" "" || String.eqb "uploads" ".") with false.
  change (String.eqb "uploads" "..") with false. cbv iota.
  cbn [locate rev get_node app]. unfold uploadsDir.
  destruct (lookup "uploads" d) as [[data|es|]|]; try reflexivity.
  apply String.eqb_neq in H1, H3, H4. rewrite H1, H3, H4. reflexivity.
Qed.

Lemma namei_here (d : entries) : namei d "." = Ok [].
Proof. reflexivity. Qed.

Lemma Stat_child (d : entries) (x : string) :
  valid_name x = true ->
  Stat d ("uploads/" ++ x) =
  match lookup uploadsDir d with
  | Some (Dir es) =>
      match lookup x es with
      | Some n => Ok n
      | None => Err ENOENT
      end
  | Some (File _) => Err ENOTDIR
  | Some NoAccess => Err EACCES
  | None => Err ENOENT
  end.
Proof.
  intros H. unfold Stat. rewrite namei_child by assumption.
  unfold uploadsDir.
  destruct (lookup "uploads" d) as [[data|es|]|] eqn:E; try reflexivity.
  cbn [get_node]. rewrite E. destruct (lookup x es); reflexivity.
Qed.

Lemma OpenFile_create_top (d : entries) (name : string) :
  valid_name name = true ->
  OpenFile_create d name =
  match lookup name d with
  | Some (File _) => Ok (d, [name])
  | Some _ => Err EISDIR
  | None => Ok (put_entry name (File "") d, [name])
  end.
Proof.
  intros H. unfold OpenFile_create. rewrite namei_top by assumption.
  cbn [get_node]. destruct (lookup name d) as [[data|es|]|]; reflexivity.
Qed.

Lemma OpenFile_create_child (d : entries) (x : string) :
  valid_name x = true ->
  OpenFile_create d ("uploads/" ++ x) =
  match lookup uploadsDir d with
  | Some (Dir es) =>
      match lookup x es with
      | Some (File _) => Ok (d, [uploadsDir; x])
      | Some _ => Err EISDIR
      | None =>
          Ok (put_entry uploadsDir (Dir (put_entry x (File "") es)) d,
              [uploadsDir; x])
      end
  | Some (File _) => Err ENOTDIR
  | Some NoAccess => Err EACCES
  | None => Err ENOENT
  end.
Proof.
  intros H. unfold OpenFile_create. rewrite namei_child by assumption.
  unfold uploadsDir.
  destruct (lookup "uploads" d) as [[data|es|]|] eqn:E; try reflexivity.
  cbn [get_node put_node]. rewrite E.
  destruct (lookup x es) as [[data|es'|]|]; reflexivity.
Qed.

Lemma OpenFile_create_here (d : entries) :
  OpenFile_create d "." = Err EISDIR.
Proof. reflexivity. Qed.

Lemma ReadFile_top (d : entries) (name : string) :
  valid_name name = true ->
  ReadFile d name =
  match lookup name d with
  | Some (File data) => Ok data
  | Some (Dir _) => Err EISDIR
  | Some NoAccess => Err EACCES
  | None => Err ENOENT
  end.
Proof.
  intros H. unfold ReadFile. rewrite Stat_top by assumption.
  destruct (lookup name d) as [[data|es|]|]; reflexivity.
Qed.

Lemma ReadFile_child (d : entries) (x : string) :
  valid_name x = true ->
  ReadFile d ("uploads/" ++ x) =
  match lookup uploadsDir d with
  | Some (Dir es) =>
      match lookup x es with
      | Some (File data) => Ok data
      | Some (Dir _) => Err EISDIR
      | Some NoAccess => Err EACCES
      | None => Err ENOENT
      end
  | Some (File _) => Err ENOTDIR
  | Some NoAccess => Err EACCES
  | None => Err ENOENT
  end.
Proof.
  intros H. unfold ReadFile. rewrite Stat_child by assumption.
  destruct (lookup uploadsDir d) as [[data|es|]|]; try reflexivity.
  destruct (lookup x es) as [[data|es'|]|]; reflexivity.
Qed.

Lemma drop_beyond (n : nat) (s : string) :
  String.length s <= n -> drop n s = "".
Proof.
  revert n. induction s as [|c s IH]; intros [|n] H; cbn in *;
    try reflexivity; try lia.
  apply IH. lia.
Qed.

Lemma overwrite_empty (data : string) : overwrite "" 0 data = data.
Proof.
  unfold overwrite. cbn [take append].
  rewrite drop_beyond by (cbn; lia). apply append_nil_r.
Qed.

Lemma overwrite_end (old data : string) :
  overwrite old (String.length old) data = old ++ data.
Proof.
  unfold overwrite. rewrite take_all.
  rewrite drop_beyond by lia. now rewrite append_nil_r.
Qed.

Lemma overwrite_start (old data : string) :
  overwrite old 0 data = data ++ drop (String.length data) old.
Proof. reflexivity. Qed.

End TreeFacts.

(* ================================================================= *)
(** * The log and the upload handler *)

Section UploadFacts.

Lemma writeLog_other (k m : string) (e : Env) (w : World) :
  k <> logFileName ->
  lookup k (disk (writeLog m e w)) = lookup k (disk w).
Proof.
  intros Hk. unfold writeLog.
  rewrite OpenFile_create_top by reflexivity.
  destruct (lookup logFileName (disk w)) as [[old|es|]|] eqn:L;
    try reflexivity;
    unfold write_at; destruct (log_fault e); cbn [disk set_disk Println put_node];
    now rewrite ?lookup_put_entry_other by assumption.
Qed.

Lemma Sprintf_line (m : string) :
  fmt.Sprintf ("%s" ++ newline) [m] = m ++ newline.
Proof. reflexivity. Qed.

(** A log write that goes through appends the message and a line feed
    to what the log held ([""] when it did not exist). *)
Lemma writeLog_appends (m : string) (e : Env) (w : World) (old : string) :
  log_fault e = None ->
  lookup logFileName (disk w) = Some (File old) \/
  (lookup logFileName (disk w) = None /\ old = "") ->
  lookup logFileName (disk (writeLog m e w))
  = Some (File (old ++ m ++ newline)).
Proof.
  intros Hf Hold. unfold writeLog.
  rewrite OpenFile_create_top by reflexivity. rewrite Sprintf_line.
  unfold write_at. rewrite Hf.
  destruct Hold as [L | [L ->]]; rewrite L.
  - unfold contents. cbn [get_node put_node disk set_disk]. rewrite L.
    rewrite overwrite_end. apply lookup_put_entry_same.
  - unfold contents. cbn [get_node put_node disk set_disk].
    rewrite !lookup_put_entry_same. cbn [String.length].
    now rewrite overwrite_empty.
Qed.

Lemma Sprintf_stamp (t : string) : fmt.Sprintf " [%s]" [t] = " [" ++ t ++ "]".
Proof. reflexivity. Qed.

Lemma Sprintf_url (id : string) : fmt.Sprintf "/file/%s" [id] = "/file/" ++ id.
Proof. cbn. now rewrite append_nil_r. Qed.

(** An upload that opens its target and copies the body through is
    answered with the success page, whatever the log does. *)
Lemma upload_runs (cfg : Config) (e : Env) (w : World) (r : Request)
      (filename data : string) (d1 : entries) (f : fd) :
  Method r = "POST" ->
  FormFile r = Some (filename, data) ->
  OpenFile_create (disk w)
    (filepath.Join [uploadsDir; identifier e filename]) = Ok (d1, f) ->
  copy_fault e = None ->
  uploadHandler cfg e w r
  = (Reply (Page [] (success_page cfg (identifier e filename))),
     writeLog (log_line cfg e filename) e
       (set_disk (copied d1 f data) (snd (generateUUID e w)))).
Proof.
  intros Hm Hf Hopen Hcopy. unfold uploadHandler.
  rewrite Hm, Hf. cbn [String.eqb Ascii.eqb Bool.eqb].
  pose proof (generateUUID_text e w) as Ht.
  pose proof (generateUUID_disk e w) as Hd.
  destruct (generateUUID e w) as [id w1]. cbn [fst snd] in *. subst id.
  fold (identifier e filename). rewrite Hd, Hopen.
  unfold write_at. rewrite Hcopy. cbn [negb].
  rewrite Sprintf_stamp, Sprintf_url. unfold success_page, log_line.
  reflexivity.
Qed.

(** An upload whose target cannot be opened is answered 500. *)
Lemma upload_open_fails (cfg : Config) (e : Env) (w : World) (r : Request)
      (filename data : string) (err : errno) :
  Method r = "POST" ->
  FormFile r = Some (filename, data) ->
  OpenFile_create (disk w)
    (filepath.Join [uploadsDir; identifier e filename]) = Err err ->
  fst (uploadHandler cfg e w r)
  = Reply (Error [] "Internal Server Error" StatusInternalServerError).
Proof.
  intros Hm Hf Hopen. unfold uploadHandler.
  rewrite Hm, Hf. cbn [String.eqb Ascii.eqb Bool.eqb].
  pose proof (generateUUID_text e w) as Ht.
  pose proof (generateUUID_disk e w) as Hd.
  destruct (generateUUID e w) as [id w1]. cbn [fst snd] in *. subst id.
  fold (identifier e filename). rewrite Hd, Hopen. reflexivity.
Qed.

(** What a 200 from the upload handler tells. *)
Lemma upload_success (cfg : Config) (e : Env) (w : World) (r : Request)
      (filename data : string) (resp : Response) (w' : World) :
  FormFile r = Some (filename, data) ->
  uploadHandler cfg e w r = (Reply resp, w') ->
  status resp = 200 ->
  Method r = "POST" /\ copy_fault e = None /\
  exists d1 f,
    OpenFile_create (disk w)
      (filepath.Join [uploadsDir; identifier e filename]) = Ok (d1, f) /\
    resp = Page [] (success_page cfg (identifier e filename)) /\
    w' = writeLog (log_line cfg e filename) e
           (set_disk (copied d1 f data) (snd (generateUUID e w))).
Proof.
  intros Hf Hrun Hst.
  destruct (String.eqb_spec (Method r) "POST") as [Hm|Hm].
  2:{ unfold uploadHandler in Hrun. apply String.eqb_neq in Hm.
      rewrite Hm in Hrun. inversion Hrun; subst. discriminate. }
  destruct (OpenFile_create (disk w)
              (filepath.Join [uploadsDir; identifier e filename]))
    as [[d1 f]|err] eqn:Hopen.
  2:{ pose proof (upload_open_fails cfg e w r _ _ _ Hm Hf Hopen) as H.
      rewrite Hrun in H. cbn [fst] in H. inversion H; subst. discriminate. }
  destruct (copy_fault e) as [k|] eqn:Hcopy.
  { exfalso. unfold uploadHandler in Hrun.
    rewrite Hm, Hf in Hrun. cbn [String.eqb Ascii.eqb Bool.eqb] in Hrun.
    pose proof (generateUUID_text e w) as Ht.
    pose proof (generateUUID_disk e w) as Hd.
    destruct (generateUUID e w) as [id w1]. cbn [fst snd] in *. subst id.
    fold (identifier e filename) in Hrun. rewrite Hd, Hopen in Hrun.
    unfold write_at in Hrun. rewrite Hcopy in Hrun. cbn [negb] in Hrun.
    inversion Hrun; subst. discriminate. }
  rewrite (upload_runs cfg e w r _ _ _ _ Hm Hf Hopen Hcopy) in Hrun.
  inversion Hrun; subst. repeat split; try assumption.
  exists d1, f. repeat split; assumption.
Qed.

End UploadFacts.

(* ================================================================= *)
(** * Where an upload is written *)

Section TargetFacts.

Lemma Join_under_uploads (x : string) :
  mem slash x = false -> x <> ".." ->
  under_uploads (filepath.Join [uploadsDir; x]).
Proof.
  intros Hs Hdd. rewrite Join_plain by assumption.
  destruct (plain_name_cases x Hs) as [->|[->|[->|Hv]]].
  - now left.
  - now left.
  - congruence.
  - pose proof (valid_name_inv _ Hv) as (H1 & _ & H3 & H4).
    apply String.eqb_neq in H1, H3, H4. rewrite H1, H3, H4.
    right. now exists x.
Qed.

Lemma target_of_upload (e : Env) (filename : string) :
  under_uploads (filepath.Join [uploadsDir; identifier e filename]).
Proof.
  apply Join_under_uploads;
    [apply identifier_no_slash | apply identifier_not_dotdot].
Qed.

(** Reading below the storage root looks at the entry [uploads] only. *)
Lemma ReadFile_frame (p : string) (d d' : entries) :
  under_uploads p ->
  lookup uploadsDir d = lookup uploadsDir d' ->
  ReadFile d p = ReadFile d' p.
Proof.
  intros [->|(x & Hx & ->)] E.
  - rewrite !ReadFile_top by reflexivity. fold uploadsDir. now rewrite E.
  - rewrite !ReadFile_child by assumption. now rewrite E.
Qed.

Lemma Stat_frame (p : string) (d d' : entries) :
  under_uploads p ->
  lookup uploadsDir d = lookup uploadsDir d' ->
  Stat d p = Stat d' p.
Proof.
  intros [->|(x & Hx & ->)] E.
  - rewrite !Stat_top by reflexivity. fold uploadsDir. now rewrite E.
  - rewrite !Stat_child by assumption. now rewrite E.
Qed.

(** Opening the target and copying the body into it: the file then
    holds the body written over what it held before. *)
Lemma copy_then_read (p : string) (d d1 : entries) (f : fd) (data : string) :
  under_uploads p ->
  OpenFile_create d p = Ok (d1, f) ->
  ReadFile (copied d1 f data) p = Ok (overwrite (held d p) 0 data).
Proof.
  unfold held, copied, contents.
  intros [->|(x & Hx & ->)] Hopen.
  - rewrite OpenFile_create_top in Hopen by reflexivity.
    rewrite !ReadFile_top by reflexivity.
    destruct (lookup "uploads" d) as [[old|es|]|] eqn:L;
      inversion Hopen; subst; cbn [get_node put_node].
    + rewrite L. now rewrite lookup_put_entry_same.
    + now rewrite !lookup_put_entry_same.
  - rewrite OpenFile_create_child in Hopen by assumption.
    rewrite !ReadFile_child by assumption.
    destruct (lookup uploadsDir d) as [[old|es|]|] eqn:L;
      try discriminate.
    destruct (lookup x es) as [[old|es'|]|] eqn:Lx;
      inversion Hopen; subst; cbn [get_node put_node].
    + rewrite L, Lx. rewrite lookup_put_entry_same.
      now rewrite lookup_put_entry_same.
    + rewrite ?lookup_put_entry_same. cbn [get_node].
      now rewrite ?lookup_put_entry_same.
Qed.

(** Nothing outside the storage root is touched. *)
Lemma copy_elsewhere (p : string) (d d1 : entries) (f : fd)
      (data k : string) :
  under_uploads p ->
  OpenFile_create d p = Ok (d1, f) ->
  k <> uploadsDir ->
  lookup k (copied d1 f data) = lookup k d.
Proof.
  unfold copied, contents.
  intros [->|(x & Hx & ->)] Hopen Hk.
  - rewrite OpenFile_create_top in Hopen by reflexivity.
    destruct (lookup "uploads" d) as [[old|es|]|] eqn:L;
      inversion Hopen; subst; cbn [get_node put_node];
      now rewrite !lookup_put_entry_other by assumption.
  - rewrite OpenFile_create_child in Hopen by assumption.
    destruct (lookup uploadsDir d) as [[old|es|]|] eqn:L;
      try discriminate.
    destruct (lookup x es) as [[old|es'|]|] eqn:Lx;
      inversion Hopen; subst; cbn [get_node put_node].
    + rewrite L. now rewrite lookup_put_entry_other by assumption.
    + rewrite lookup_put_entry_same.
      now rewrite !lookup_put_entry_other by assumption.
Qed.

(** After a successful upload the target holds the body, written from
    the start over what the path held before. *)
Lemma upload_stores (cfg : Config) (e : Env) (w : World) (r : Request)
      (filename data : string) (resp : Response) (w' : World) :
  FormFile r = Some (filename, data) ->
  uploadHandler cfg e w r = (Reply resp, w') ->
  status resp = 200 ->
  let p := filepath.Join [uploadsDir; identifier e filename] in
  ReadFile (disk w') p = Ok (overwrite (held (disk w) p) 0 data).
Proof.
  intros Hf Hrun Hst p.
  destruct (upload_success _ _ _ _ _ _ _ _ Hf Hrun Hst)
    as (Hm & Hcopy & d1 & f & Hopen & _ & ->).
  pose proof (target_of_upload e filename) as Hp. fold p in Hp, Hopen.
  rewrite <- (copy_then_read p (disk w) d1 f data Hp Hopen).
  apply ReadFile_frame; [assumption|].
  now rewrite writeLog_other by discriminate.
Qed.

End TargetFacts.

(* ================================================================= *)
(** * The file handler *)

Section FileHandlerFacts.
Variable TypeByExtension : string -> string.

Lemma Sprintf_disposition (name : string) :
  fmt.Sprintf ("inline; filename=" ++ dquote ++ "%s" ++ dquote) [name]
  = "inline; filename=" ++ dquote ++ name ++ dquote.
Proof. reflexivity. Qed.

(** A GET below [/file/]: not-found when [os.Stat] says the path does
    not exist, and otherwise whatever [http.ServeFile] answers under the
    two headers. *)
Lemma fileHandler_get (cfg : Config) (e : Env) (w : World) (r : Request) :
  Method r = "GET" ->
  String.length "/file/" <= String.length (URLPath r) ->
  fileHandler TypeByExtension cfg e w r
  = (Reply (match Stat (disk w) (resolved r) with
            | Err ENOENT => NotFound []
            | _ => ServeFile (disk w) (file_headers TypeByExtension r) r
                     (resolved r)
            end), w).
Proof.
  intros Hm Hlen. unfold fileHandler. rewrite Hm.
  cbn [String.eqb Ascii.eqb Bool.eqb].
  apply Nat.ltb_ge in Hlen. rewrite Hlen.
  fold (resolved r). rewrite Sprintf_disposition.
  fold (disposition r). fold (content_type TypeByExtension r).
  fold (file_headers TypeByExtension r).
  destruct (Stat (disk w) (resolved r)) as [n|[]]; reflexivity.
Qed.

Lemma fileHandler_other (cfg : Config) (e : Env) (w : World) (r : Request) :
  Method r <> "GET" ->
  fileHandler TypeByExtension cfg e w r = (Reply (NotFound []), w).
Proof.
  intros Hm. unfold fileHandler. apply String.eqb_neq in Hm. now rewrite Hm.
Qed.

Lemma file_headers_get (r : Request) :
  Get "Content-Disposition" (file_headers TypeByExtension r) = disposition r /\
  Get "Content-Type" (file_headers TypeByExtension r)
  = content_type TypeByExtension r.
Proof. split; reflexivity. Qed.

(** What [ServeFile] sends with status 200 and bytes for a body went out
    under the headers it was given. *)
Lemma ServeFile_page (d : entries) (h : Header) (r : Request) (name : string)
      (resp : Response) (data : string) :
  ServeFile d h r name = resp ->
  status resp = 200 -> body resp = Data data ->
  header resp = h.
Proof.
  intros <-. unfold ServeFile.
  destruct (containsDotDot (URLPath r)); [discriminate|].
  destruct (has_suffix (URLPath r) "/index.html"); [discriminate|].
  destruct (Stat d name) as [[data'|es|]|err].
  - reflexivity.
  - destruct (negb (ends_with_slash (URLPath r))); [discriminate|].
    destruct (Stat d _) as [[data'|es'|]|err]; try discriminate; reflexivity.
  - discriminate.
  - destruct err; discriminate.
Qed.


Lemma ServeFile_regular (d : entries) (h : Header) (r : Request)
      (name data : string) :
  containsDotDot (URLPath r) = false ->
  has_suffix (URLPath r) "/index.html" = false ->
  Stat d name = Ok (File data) ->
  ServeFile d h r name = Page h data.
Proof. intros H1 H2 H3. unfold ServeFile. now rewrite H1, H2, H3. Qed.

End FileHandlerFacts.

(* ================================================================= *)
(** * Pages and routes *)

Section PageFacts.

Lemma upload_page_cut :
  upload_page = upload_page_1 ++ "%s" ++ upload_page_2 ++ "%s" ++
                upload_page_3 ++ "%s" ++ upload_page_4.
Proof. reflexivity. Qed.

Lemma list_head_cut :
  list_head = list_head_1 ++ "%s" ++ list_head_2 ++ "%;" ++
              list_head_3 ++ "%s" ++ list_head_4.
Proof. reflexivity. Qed.

(** The success page with its three operands in place. *)
Lemma success_page_text (cfg : Config) (id : string) :
  success_page cfg id
  = upload_page_1 ++ CustomHTMLHead cfg ++ upload_page_2 ++
    CustomHTMLBody cfg ++ upload_page_3 ++ "/file/" ++ id ++ upload_page_4.
Proof. reflexivity. Qed.

(** The head of the list page, printed without operands. *)
Lemma list_head_text :
  fmt.Sprintf list_head []
  = list_head_1 ++ "%!s(MISSING)" ++ list_head_2 ++ "%!;(MISSING)" ++
    list_head_3 ++ "%!s(MISSING)" ++ list_head_4.
Proof. reflexivity. Qed.

Lemma list_foot_text : fmt.Sprintf list_foot [] = list_foot.
Proof. reflexivity. Qed.

Lemma mux_file (id : string) : mux ("/file/" ++ id) = Some RouteFile.
Proof.
  unfold mux.
  change (String.eqb ("/file/" ++ id) "/upload") with false.
  change (String.eqb ("/file/" ++ id) "/list") with false.
  cbv iota. now rewrite prefix_append.
Qed.

Lemma mux_route (rt : route) (p : string) :
  route_path rt p -> mux p = Some rt.
Proof.
  destruct rt; cbn [route_path].
  - now intros ->.
  - now intros ->.
  - now intros ->.
  - intros [id ->]. apply mux_file.
Qed.

(** The response of the upload handler is settled by the method, the
    form, the opening of the target and the copy. *)
Lemma upload_response (cfg : Config) (e : Env) (w : World) (r : Request) :
  fst (uploadHandler cfg e w r)
  = if String.eqb (Method r) "POST" then
      match FormFile r with
      | None => Reply (Error [] "Bad Request" StatusBadRequest)
      | Some (filename, data) =>
          match OpenFile_create (disk w)
                  (filepath.Join [uploadsDir; identifier e filename]),
                copy_fault e with
          | Ok _, None =>
              Reply (Page [] (success_page cfg (identifier e filename)))
          | _, _ =>
              Reply (Error [] "Internal Server Error"
                       StatusInternalServerError)
          end
      end
    else Reply (NotFound []).
Proof.
  unfold uploadHandler.
  destruct (String.eqb (Method r) "POST"); [|reflexivity].
  destruct (FormFile r) as [[filename data]|]; [|reflexivity].
  pose proof (generateUUID_text e w) as Ht.
  pose proof (generateUUID_disk e w) as Hd.
  destruct (generateUUID e w) as [id w1]. cbn [fst snd] in *. subst id.
  fold (identifier e filename). rewrite Hd.
  destruct (OpenFile_create _ _) as [[d1 f]|err]; [|reflexivity].
  unfold write_at. destruct (copy_fault e); cbn [negb fst]; [reflexivity|].
  rewrite Sprintf_url. unfold success_page. reflexivity.
Qed.

(** Opening a target below the storage root succeeds or fails by what
    the entry [uploads] holds. *)
Lemma open_frame (p : string) (d d' : entries) :
  under_uploads p ->
  lookup uploadsDir d = lookup uploadsDir d' ->
  match OpenFile_create d p, OpenFile_create d' p with
  | Ok _, Ok _ => True
  | Err _, Err _ => True
  | _, _ => False
  end.
Proof.
  intros [->|(x & Hx & ->)] E.
  - rewrite !OpenFile_create_top by reflexivity.
    fold uploadsDir. rewrite <- E.
    now destruct (lookup uploadsDir d) as [[old|es|]|].
  - rewrite !OpenFile_create_child by assumption. rewrite <- E.
    destruct (lookup uploadsDir d) as [[old|es|]|]; try exact I.
    now destruct (lookup x es) as [[old|es'|]|].
Qed.

Lemma files_below_named (n : node) :
  forall at_,
    (is_file n = true -> at_ <> []) ->
    Forall (fun x => valid_name x = true) at_ ->
    well_named n ->
    Forall (fun names => names <> [] /\
                         Forall (fun x => valid_name x = true) names)
           (files_below at_ n).
Proof.
  induction n as [data| |es IH] using node_induction;
    intros at_ Hfile Hat Hwf.
  - repeat constructor; [now apply Hfile | assumption].
  - constructor.
  - cbn [files_below]. clear Hfile.
    induction IH as [|[name child] r Hchild _ IHr]; [constructor|].
    cbn [well_named] in Hwf. destruct Hwf as (Hname & Hwfc & Hwfr).
    apply Forall_app. split.
    + apply Hchild; [intros _; now destruct at_ | | assumption].
      apply Forall_app. split; [assumption | now constructor].
    + now apply IHr.
Qed.

End PageFacts.

(* ================================================================= *)
(** * The files below the storage root *)

Section ListingFacts.

(** [files_below] holds the path of every file... *)
Lemma reaches_listed (n : node) (p : list string) (m : node) :
  reaches n p m ->
  forall (at_ : list string) (data : string),
    m = File data -> In (at_ ++ p)%list (files_below at_ n).
Proof.
  induction 1 as [n|es name child names m Hin Hreach IH];
    intros at_ data ->.
  - rewrite app_nil_r. now left.
  - cbn [files_below].
    specialize (IH (at_ ++ [name])%list data eq_refl).
    rewrite <- app_assoc in IH. cbn [app] in IH.
    clear Hreach. induction es as [|[k v] rest IHes]; [contradiction|].
    apply in_or_app. destruct Hin as [Heq|Hin].
    + left. now inversion Heq; subst.
    + right. now apply IHes.
Qed.

(** ... and nothing else. *)
Lemma listed_reaches (n : node) :
  forall (at_ names : list string),
    In names (files_below at_ n) ->
    exists p data, names = (at_ ++ p)%list /\ reaches n p (File data).
Proof.
  induction n as [data| |es IH] using node_induction; intros at_ names Hin.
  - destruct Hin as [<-|[]]. exists [], data.
    split; [now rewrite app_nil_r | constructor].
  - destruct Hin.
  - cbn [files_below] in Hin.
    induction IH as [|[name child] rest Hchild _ IHrest]; [destruct Hin|].
    apply in_app_or in Hin. destruct Hin as [Hin|Hin].
    + destruct (Hchild _ _ Hin) as (p & data & -> & Hp).
      exists (name :: p), data. split.
      * now rewrite <- app_assoc.
      * econstructor; [now left | exact Hp].
    + destruct (IHrest Hin) as (p & data & -> & Hp).
      exists p, data. split; [reflexivity|].
      inversion Hp; subst. econstructor; [right; eassumption | assumption].
Qed.

Lemma files_below_reaches (root : node) (names : list string) :
  In names (files_below [] root) <->
  exists data, reaches root names (File data).
Proof.
  split.
  - intros Hin. destruct (listed_reaches _ _ _ Hin) as (p & data & -> & Hp).
    now exists data.
  - intros [data Hp]. exact (reaches_listed _ _ _ Hp [] data eq_refl).
Qed.

(** The display name of an entry is the base name of its identifier. *)
Lemma entry_of_Base (es : entries) (names : list string) :
  well_named (Dir es) ->
  In names (files_below [] (Dir es)) ->
  entry_of names
  = {| ID := String.concat "/" names;
       Filename := filepath.Base (String.concat "/" names) |}.
Proof.
  intros Hwf Hin.
  pose proof (files_below_named (Dir es) [] (fun H => ltac:(discriminate H))
                (Forall_nil _) Hwf) as Hall.
  rewrite Forall_forall in Hall. destruct (Hall _ Hin) as [Hne Hv].
  unfold entry_of. now rewrite Base_concat.
Qed.

End ListingFacts.

(* ================================================================= *)
(** * Lines of the log *)

Section LogFacts.

Lemma count_append (c : ascii) (a b : string) :
  count c (a ++ b) = count c a + count c b.
Proof.
  induction a as [|d a IH]; [reflexivity|].
  cbn [append count]. rewrite IH. apply Nat.add_assoc.
Qed.

Lemma count_zeros (n : nat) : count line_feed (time.zeros n) = 0.
Proof. induction n as [|n IH]; [reflexivity | exact IH]. Qed.

Lemma count_digits (u : Decimal.uint) :
  count line_feed (NilEmpty.string_of_uint u) = 0.
Proof. induction u; [reflexivity | exact IHu ..]. Qed.

Lemma count_append_int (x width : nat) :
  count line_feed (time.append_int x width) = 0.
Proof.
  unfold time.append_int. rewrite count_append, count_zeros.
  apply count_digits.
Qed.

(** A time in the layout of the log holds no line feed. *)
Lemma count_Format (t : time.Time) : count line_feed (time.Format t) = 0.
Proof.
  unfold time.Format.
  repeat (rewrite count_append, ?count_append_int; cbn [count Nat.add]).
  cbn. now rewrite ?count_append_int.
Qed.

(** The text an upload is logged with holds one line feed more than the
    name of the file. *)
Lemma count_log_line (cfg : Config) (e : Env) (filename : string) :
  count line_feed (log_line cfg e filename ++ newline)
  = S (count line_feed filename).
Proof.
  unfold log_line. destruct (LogTimestamp cfg).
  - rewrite !count_append, count_Format. cbn. now rewrite !Nat.add_0_r, Nat.add_1_r.
  - rewrite count_append. cbn. now rewrite Nat.add_1_r.
Qed.

End LogFacts.

(* ================================================================= *)
(** * The claims *)

(** C1: a successful POST /upload of a file called [filename] answers
    with the success page whose link is [/file/<identifier>], where the
    identifier is the text [generateUUID] returned followed by
    [filepath.Ext filename], the final dot-extension of the name; the
    upload is stored under that identifier in the storage directory;
    and for [report.final.pdf] the identifier ends in [.pdf]. *)
Theorem C1_upload_identifier
        (cfg : Config) (e : Env) (w : World) (r : Request)
        (filename data : string) (resp : Response) (w' : World) :
  FormFile r = Some (filename, data) ->
  uploadHandler cfg e w r = (Reply resp, w') ->
  status resp = 200 ->
  body resp
  = Data (upload_page_1 ++ CustomHTMLHead cfg ++ upload_page_2 ++
          CustomHTMLBody cfg ++ upload_page_3 ++
          "/file/" ++ (fst (generateUUID e w) ++ filepath.Ext filename) ++
          upload_page_4) /\
  final_extension filename (filepath.Ext filename) /\
  (exists stored,
      ReadFile (disk w')
        (filepath.Join
           [uploadsDir; fst (generateUUID e w) ++ filepath.Ext filename])
      = Ok stored) /\
  (filename = "report.final.pdf" ->
   has_suffix (fst (generateUUID e w) ++ filepath.Ext filename) ".pdf"
   = true).
Proof.
  intros Hf Hrun Hst.
  pose proof (upload_stores _ _ _ _ _ _ _ _ Hf Hrun Hst) as Hread.
  destruct (upload_success _ _ _ _ _ _ _ _ Hf Hrun Hst)
    as (_ & _ & d1 & f & _ & -> & _).
  cbv zeta in Hread. rewrite generateUUID_text.
  fold (identifier e filename).
  split; [|split; [|split]].
  - exact (f_equal Data (success_page_text cfg (identifier e filename))).
  - apply Ext_final.
  - eexists. exact Hread.
  - intros ->. unfold identifier.
    change (filepath.Ext "report.final.pdf") with ".pdf".
    apply has_suffix_append.
Qed.

Lemma C1_upload_identifier_witness :
  exists resp w',
    uploadHandler sample_cfg sample_env empty_world
      (POST "/upload" "report.final.pdf" "DATA") = (Reply resp, w') /\
    status resp = 200 /\
    has_suffix
      (fst (generateUUID sample_env empty_world) ++
       filepath.Ext "report.final.pdf") ".pdf" = true /\
    ReadFile (disk w')
      "uploads/01020304-0506-4708-890a-0b0c0d0e0f10.pdf" = Ok "DATA".
Proof.
  pose (run := uploadHandler sample_cfg sample_env empty_world
                 (POST "/upload" "report.final.pdf" "DATA")).
  pose (resp := match fst run with
                | Reply resp => resp
                | Panic => NotFound []
                end).
  assert (Hrun : uploadHandler sample_cfg sample_env empty_world
                   (POST "/upload" "report.final.pdf" "DATA")
                 = (Reply resp, snd run)) by (vm_compute; reflexivity).
  assert (Hst : status resp = 200) by (vm_compute; reflexivity).
  exists resp, (snd run).
  destruct (C1_upload_identifier sample_cfg sample_env empty_world
              (POST "/upload" "report.final.pdf" "DATA")
              "report.final.pdf" "DATA" resp (snd run)
              eq_refl Hrun Hst) as (_ & _ & _ & Hpdf).
  split; [exact Hrun | split; [exact Hst | split; [exact (Hpdf eq_refl) | ]]].
  vm_compute. reflexivity.
Defined.

(** C2, as stated, for every state of the storage directory: refuted by
    a storage directory that holds a file [a.txt] and a subdirectory
    that cannot be read; the walk ends with the error of reading the
    subdirectory, and [getFileList] returns the error and no entry, not
    even the one of [a.txt]. *)
Lemma C2_unreadable_subdirectory : ~ lists_every_file locked_world.
Proof.
  intros H.
  destruct (H (Dir [("a.txt", File "hello"); ("private", NoAccess)])
              ["a.txt"] eq_refl (or_introl eq_refl)) as (files & Hlist & _).
  vm_compute in Hlist. discriminate Hlist.
Qed.

(** C2, amended: when every directory from the storage root down can be
    read, [getFileList] enumerates the storage directory recursively:
    every file (every entry that is not a directory), those of
    subdirectories included, has its entry, whose identifier is the
    path of the file relative to the storage root and whose display
    name is the base name of that path; and every entry returned is the
    one of such a file: directories themselves are skipped.  When a
    directory cannot be read, [getFileList] returns the error and no
    entries.  (The entries of the tree bear names a file system allows:
    [well_named].) *)
Theorem C2_getFileList_enumerates (w : World) (es : entries) :
  lookup uploadsDir (disk w) = Some (Dir es) ->
  well_named (Dir es) ->
  (readable (Dir es) = true ->
   exists files,
     getFileList w = inr files /\
     (forall names n,
         reaches (Dir es) names n ->
         IsDir n = false ->
         In {| ID := String.concat "/" names;
               Filename := filepath.Base (String.concat "/" names) |}
            files) /\
     (forall file,
         In file files ->
         exists names n,
           reaches (Dir es) names n /\
           IsDir n = false /\
           ID file = String.concat "/" names /\
           Filename file = filepath.Base (ID file))) /\
  (readable (Dir es) = false -> getFileList w = inl (PathError EACCES)).
Proof.
  intros Hroot Hwf.
  pose proof (getFileList_dir w (Dir es) Hroot eq_refl Hwf) as Hlist.
  split; intros Hread; rewrite Hread in Hlist; [|exact Hlist].
  exists (map entry_of (files_below [] (Dir es))).
  split; [exact Hlist|]. split.
  - intros names n Hp Hn.
    destruct n as [data| |]; try discriminate Hn.
    assert (Hin : In names (files_below [] (Dir es)))
      by (apply files_below_reaches; now exists data).
    rewrite <- (entry_of_Base es names Hwf Hin). now apply in_map.
  - intros file Hin. apply in_map_iff in Hin.
    destruct Hin as (names & <- & Hin).
    rewrite (entry_of_Base es names Hwf Hin). cbn [ID Filename].
    apply files_below_reaches in Hin. destruct Hin as [data Hp].
    now exists names, (File data).
Qed.

Lemma C2_getFileList_enumerates_witness :
  exists files,
    getFileList nested_world = inr files /\
    In {| ID := "sub/deep/c"; Filename := "c" |} files /\
    length files = 3.
Proof.
  assert (Hwf : well_named (Dir nested_entries))
    by (simpl; repeat split).
  destruct (C2_getFileList_enumerates nested_world nested_entries
              eq_refl Hwf) as [Hlist _].
  destruct (Hlist eq_refl) as (files & Hfiles & Hall & _).
  exists files. split; [exact Hfiles|]. split.
  - apply (Hall ["sub"; "deep"; "c"] (File "")); [|reflexivity].
    econstructor; [right; left; reflexivity|].
    econstructor; [right; left; reflexivity|].
    econstructor; [left; reflexivity|]. constructor.
  - assert (Hrun : getFileList nested_world
                   = inr [ {| ID := "a.txt"; Filename := "a.txt" |};
                           {| ID := "sub/b.pdf"; Filename := "b.pdf" |};
                           {| ID := "sub/deep/c"; Filename := "c" |} ])
      by (vm_compute; reflexivity).
    rewrite Hrun in Hfiles. now inversion Hfiles.
Defined.




(** C4: the handler of each of the four routes [/], [/upload], [/list]
    and [/file/<id>] answers a request whose method is not the one it
    serves (GET, POST, GET, GET) with [http.NotFound]: status 404, not
    405, and the world is left as it was.  A request with a canonical
    path on the route is dispatched to that handler, so the server
    answers it so; PUT /upload and DELETE /list are two such
    requests. *)
Theorem C4_other_method_not_found
        (TypeByExtension : string -> string)
        (cfg : Config) (e : Env) (w : World) (r : Request) (rt : route) :
  Method r <> allowed rt ->
  handler TypeByExtension rt cfg e w r = (Reply (NotFound []), w) /\
  status (NotFound []) = 404 /\
  (route_path rt (URLPath r) ->
   canonical (URLPath r) ->
   serve TypeByExtension cfg e w r = (Reply (NotFound []), w)).
Proof.
  intros Hm.
  assert (Hhandler : handler TypeByExtension rt cfg e w r
                     = (Reply (NotFound []), w)).
  { apply String.eqb_neq in Hm.
    destruct rt; cbn [handler allowed] in *.
    - unfold indexHandler. now rewrite Hm.
    - unfold uploadHandler. now rewrite Hm.
    - unfold listHandler. now rewrite Hm.
    - unfold fileHandler. now rewrite Hm. }
  split; [exact Hhandler|]. split; [reflexivity|].
  intros Hpath _. unfold serve. now rewrite (mux_route rt _ Hpath).
Qed.

Lemma C4_other_method_not_found_witness :
  serve builtin_types sample_cfg sample_env nested_world
    {| Method := "PUT"; URLPath := "/upload";
       FormFile := Some ("a.txt", "DATA") |}
  = (Reply (NotFound []), nested_world) /\
  serve builtin_types sample_cfg sample_env nested_world
    {| Method := "DELETE"; URLPath := "/list"; FormFile := None |}
  = (Reply (NotFound []), nested_world) /\
  status (NotFound []) = 404.
Proof.
  split; [|split].
  - apply (C4_other_method_not_found builtin_types sample_cfg
             sample_env nested_world
             {| Method := "PUT"; URLPath := "/upload";
                FormFile := Some ("a.txt", "DATA") |}
             RouteUpload ltac:(discriminate)); reflexivity.
  - apply (C4_other_method_not_found builtin_types sample_cfg
             sample_env nested_world
             {| Method := "DELETE"; URLPath := "/list";
                FormFile := None |}
             RouteList ltac:(discriminate)); reflexivity.
  - reflexivity.
Defined.

(** C5, as stated, after a successful upload the file holds exactly the
    uploaded bytes: refuted by two uploads that get the same identifier
    (here the empty one of a failing random source, with the same
    extension).  The first stores [hello world] in [uploads/.txt]; the
    second opens the same file with [O_WRONLY|O_CREATE], which neither
    refuses nor truncates it, writes [bye] from the start, is answered
    with the success page, and leaves [byelo world] behind. *)
Lemma C5_stale_bytes_survive :
  ~ stores_exactly sample_cfg dry_env
      (snd (uploadHandler sample_cfg dry_env empty_world
              (POST "/upload" "notes.txt" "hello world")))
      (POST "/upload" "notes.txt" "bye").
Proof.
  intros H.
  pose (run := uploadHandler sample_cfg dry_env
                 (snd (uploadHandler sample_cfg dry_env empty_world
                         (POST "/upload" "notes.txt" "hello world")))
                 (POST "/upload" "notes.txt" "bye")).
  pose (resp := match fst run with
                | Reply resp => resp
                | Panic => NotFound []
                end).
  assert (Hrun : run = (Reply resp, snd run)) by (vm_compute; reflexivity).
  assert (Hst : status resp = 200) by (vm_compute; reflexivity).
  specialize (H "notes.txt" "bye" resp (snd run) eq_refl Hrun Hst).
  vm_compute in H. discriminate H.
Qed.

(** C5, amended: the upload opens [uploads/<identifier>] with
    [O_WRONLY|O_CREATE], creating the file when it is missing and
    opening it as it is otherwise, and copies the body into it from
    offset 0.  After a successful upload the file holds the uploaded
    bytes followed by what the file held before beyond their length; it
    holds exactly the uploaded bytes when the path held no file, or one
    no longer than the upload. *)
Theorem C5_upload_content
        (cfg : Config) (e : Env) (w : World) (r : Request)
        (filename data : string) (resp : Response) (w' : World) :
  FormFile r = Some (filename, data) ->
  uploadHandler cfg e w r = (Reply resp, w') ->
  status resp = 200 ->
  ReadFile (disk w') (filepath.Join [uploadsDir; identifier e filename])
  = Ok (data ++
        drop (String.length data)
          (held (disk w)
             (filepath.Join [uploadsDir; identifier e filename]))) /\
  (String.length
     (held (disk w) (filepath.Join [uploadsDir; identifier e filename]))
   <= String.length data ->
   ReadFile (disk w') (filepath.Join [uploadsDir; identifier e filename])
   = Ok data).
Proof.
  intros Hf Hrun Hst.
  pose proof (upload_stores _ _ _ _ _ _ _ _ Hf Hrun Hst) as Hread.
  cbv zeta in Hread. rewrite overwrite_start in Hread.
  split; [exact Hread|].
  intros Hlen. rewrite Hread, drop_beyond by assumption.
  now rewrite append_nil_r.
Qed.

Lemma C5_upload_content_witness :
  exists w',
    snd (uploadHandler sample_cfg sample_env nested_world
           (POST "/upload" "notes.txt" "bye")) = w' /\
    ReadFile (disk w')
      (filepath.Join [uploadsDir; identifier sample_env "notes.txt"])
    = Ok "bye".
Proof.
  pose (run := uploadHandler sample_cfg sample_env nested_world
                 (POST "/upload" "notes.txt" "bye")).
  pose (resp := match fst run with
                | Reply resp => resp
                | Panic => NotFound []
                end).
  assert (Hrun : uploadHandler sample_cfg sample_env nested_world
                   (POST "/upload" "notes.txt" "bye")
                 = (Reply resp, snd run)) by (vm_compute; reflexivity).
  assert (Hst : status resp = 200) by (vm_compute; reflexivity).
  exists (snd run). split; [reflexivity|].
  apply (C5_upload_content sample_cfg sample_env nested_world
           (POST "/upload" "notes.txt" "bye") "notes.txt" "bye"
           resp (snd run) eq_refl Hrun Hst).
  vm_compute. apply Nat.le_0_l.
Defined.




(** C7: whenever GET /file/<identifier> sends the bytes of a file with
    status 200, the response carries the header Content-Disposition
    [inline; filename="<base name of the resolved path>"], and the
    header Content-Type set to what the type table gives for the
    extension of that base name, or to [application/octet-stream] when
    the table gives nothing. *)
Theorem C7_file_headers
        (TypeByExtension : string -> string)
        (cfg : Config) (e : Env) (w : World) (r : Request)
        (resp : Response) (data : string) :
  fst (fileHandler TypeByExtension cfg e w r) = Reply resp ->
  status resp = 200 ->
  body resp = Data data ->
  Get "Content-Disposition" (header resp)
  = "inline; filename=" ++ dquote ++ filepath.Base (resolved r) ++ dquote /\
  Get "Content-Type" (header resp)
  = (if String.eqb
          (TypeByExtension (filepath.Ext (filepath.Base (resolved r)))) ""
     then "application/octet-stream"
     else TypeByExtension (filepath.Ext (filepath.Base (resolved r)))).
Proof.
  intros Hrun Hst Hbody.
  destruct (String.eqb_spec (Method r) "GET") as [Hm|Hm].
  2:{ rewrite fileHandler_other in Hrun by assumption.
      injection Hrun as <-. discriminate Hst. }
  destruct (Nat.ltb (String.length (URLPath r)) (String.length "/file/"))
    eqn:Hlen.
  { unfold fileHandler in Hrun. rewrite Hm in Hrun.
    cbn [String.eqb Ascii.eqb Bool.eqb] in Hrun.
    rewrite Hlen in Hrun. discriminate Hrun. }
  apply Nat.ltb_ge in Hlen.
  rewrite (fileHandler_get TypeByExtension cfg e w r Hm Hlen) in Hrun.
  cbn [fst] in Hrun.
  assert (Hh : header resp = file_headers TypeByExtension r).
  { destruct (Stat (disk w) (resolved r)) as [n|err].
    - injection Hrun as Hresp.
      exact (ServeFile_page _ _ _ _ _ _ Hresp Hst Hbody).
    - destruct err; injection Hrun as Hresp;
        try exact (ServeFile_page _ _ _ _ _ _ Hresp Hst Hbody).
      subst resp. discriminate Hst. }
  rewrite Hh. exact (file_headers_get TypeByExtension r).
Qed.

Lemma C7_file_headers_witness :
  (exists resp,
      fst (fileHandler builtin_types sample_cfg sample_env nested_world
             (GET "/file/sub/b.pdf")) = Reply resp /\
      Get "Content-Disposition" (header resp)
      = "inline; filename=" ++ dquote ++ "b.pdf" ++ dquote /\
      Get "Content-Type" (header resp) = "application/pdf") /\
  (exists resp,
      fst (fileHandler builtin_types sample_cfg sample_env nested_world
             (GET "/file/a.txt")) = Reply resp /\
      Get "Content-Disposition" (header resp)
      = "inline; filename=" ++ dquote ++ "a.txt" ++ dquote /\
      Get "Content-Type" (header resp) = "application/octet-stream").
Proof.
  split.
  - pose (run := fst (fileHandler builtin_types sample_cfg sample_env
                        nested_world (GET "/file/sub/b.pdf"))).
    pose (resp := match run with
                  | Reply resp => resp
                  | Panic => NotFound []
                  end).
    exists resp. split; [reflexivity|].
    exact (C7_file_headers builtin_types sample_cfg sample_env nested_world
             (GET "/file/sub/b.pdf") resp "%PDF" eq_refl eq_refl eq_refl).
  - pose (run := fst (fileHandler builtin_types sample_cfg sample_env
                        nested_world (GET "/file/a.txt"))).
    pose (resp := match run with
                  | Reply resp => resp
                  | Panic => NotFound []
                  end).
    exists resp. split; [reflexivity|].
    exact (C7_file_headers builtin_types sample_cfg sample_env nested_world
             (GET "/file/a.txt") resp "hello" eq_refl eq_refl eq_refl).
Defined.

(** C8, as stated, every completed upload appends exactly one line:
    refuted by an upload whose file name holds a line feed, which a
    client can send in the [filename*] parameter of the form.  The name
    is written to the log as it is, and the upload leaves two lines in
    a log that was empty. *)
Lemma C8_two_lines_logged :
  ~ appends_one_line sample_cfg sample_env nested_world
      (POST "/upload" two_line_name "DATA").
Proof.
  intros H.
  pose (run := uploadHandler sample_cfg sample_env nested_world
                 (POST "/upload" two_line_name "DATA")).
  pose (resp := match fst run with
                | Reply resp => resp
                | Panic => NotFound []
                end).
  pose (new := match lookup logFileName (disk (snd run)) with
               | Some (File new) => new
               | _ => ""
               end).
  assert (Hrun : run = (Reply resp, snd run)) by (vm_compute; reflexivity).
  assert (Hst : status resp = 200) by (vm_compute; reflexivity).
  assert (Hnew : lookup logFileName (disk (snd run)) = Some (File new))
    by (vm_compute; reflexivity).
  specialize (H two_line_name "DATA" resp (snd run) "" new
                eq_refl Hrun Hst eq_refl eq_refl Hnew).
  vm_compute in H. discriminate H.
Qed.

(** C8, amended: an upload that completes, and whose write to the log
    goes through, appends to [log.txt], which is created when it is
    missing, the original file name, followed by [ [<time>]], the local
    time in the layout [2006-01-02 15:04:05], when [log_timestamp] is
    set, and a line feed.  The text appended holds one line feed more
    than the file name: it is exactly one line when the name holds no
    line feed.  The response of the upload does not depend on the log:
    it is the same when the write of the line breaks off, and the same
    whatever [log.txt] is (a file, a directory that cannot be opened
    for writing, or nothing). *)
Theorem C8_upload_log
        (cfg : Config) (e : Env) (w : World) (r : Request)
        (filename data : string) (resp : Response) (w' : World) :
  FormFile r = Some (filename, data) ->
  uploadHandler cfg e w r = (Reply resp, w') ->
  status resp = 200 ->
  (forall old,
      log_fault e = None ->
      lookup logFileName (disk w) = Some (File old) \/
      (lookup logFileName (disk w) = None /\ old = "") ->
      lookup logFileName (disk w')
      = Some (File (old ++
                    (if LogTimestamp cfg
                     then filename ++ " [" ++ time.Format (now e) ++ "]"
                     else filename) ++ newline))) /\
  count line_feed
    ((if LogTimestamp cfg
      then filename ++ " [" ++ time.Format (now e) ++ "]"
      else filename) ++ newline)
  = S (count line_feed filename) /\
  (forall fault,
      fst (uploadHandler cfg (with_log_fault fault e) w r) = Reply resp) /\
  (forall d,
      lookup uploadsDir d = lookup uploadsDir (disk w) ->
      fst (uploadHandler cfg e (set_disk d w) r) = Reply resp).
Proof.
  intros Hf Hrun Hst.
  destruct (upload_success _ _ _ _ _ _ _ _ Hf Hrun Hst)
    as (Hm & Hcopy & d1 & f & Hopen & -> & ->).
  pose proof (target_of_upload e filename) as Hp.
  split; [|split; [|split]].
  - intros old Hfault Hold.
    apply writeLog_appends; [assumption|].
    cbn [disk set_disk].
    now rewrite (copy_elsewhere _ _ _ _ data logFileName Hp Hopen)
      by discriminate.
  - exact (count_log_line cfg e filename).
  - intros fault. rewrite upload_response, Hm, Hf.
    cbn [String.eqb Ascii.eqb Bool.eqb].
    change (identifier (with_log_fault fault e) filename)
      with (identifier e filename).
    change (copy_fault (with_log_fault fault e)) with (copy_fault e).
    now rewrite Hopen, Hcopy.
  - intros d Hd. rewrite upload_response, Hm, Hf.
    cbn [String.eqb Ascii.eqb Bool.eqb disk set_disk].
    pose proof (open_frame _ d (disk w) Hp Hd) as Hframe.
    rewrite Hopen in Hframe. rewrite Hcopy.
    now destruct (OpenFile_create d _).
Qed.

Lemma C8_upload_log_witness :
  exists resp w',
    uploadHandler sample_cfg sample_env nested_world
      (POST "/upload" "notes.txt" "bye") = (Reply resp, w') /\
    lookup logFileName (disk w')
    = Some (File ("notes.txt [2024-03-09 07:05:42]" ++ newline)) /\
    count line_feed ("notes.txt [2024-03-09 07:05:42]" ++ newline) = 1 /\
    fst (uploadHandler sample_cfg (with_log_fault (Some 3) sample_env)
           nested_world (POST "/upload" "notes.txt" "bye")) = Reply resp.
Proof.
  pose (run := uploadHandler sample_cfg sample_env nested_world
                 (POST "/upload" "notes.txt" "bye")).
  pose (resp := match fst run with
                | Reply resp => resp
                | Panic => NotFound []
                end).
  assert (Hrun : uploadHandler sample_cfg sample_env nested_world
                   (POST "/upload" "notes.txt" "bye")
                 = (Reply resp, snd run)) by (vm_compute; reflexivity).
  assert (Hst : status resp = 200) by (vm_compute; reflexivity).
  destruct (C8_upload_log sample_cfg sample_env nested_world
              (POST "/upload" "notes.txt" "bye") "notes.txt" "bye"
              resp (snd run) eq_refl Hrun Hst)
    as (Hline & Hcount & Hfault & _).
  exists resp, (snd run). split; [exact Hrun|]. split; [|split].
  - exact (Hline "" eq_refl (or_introl eq_refl)).
  - exact Hcount.
  - exact (Hfault (Some 3)).
Defined.

(** C9: no handler reads [EnableXSSProtection]; two runs of the server
    on the same request, environment and world, under configurations
    that differ in this field only, give the same response (and leave
    the same world). *)
Theorem C9_xss_flag_unused
        (TypeByExtension : string -> string)
        (cfg : Config) (e : Env) (w : World) (r : Request) (b : bool) :
  serve TypeByExtension (with_xss b cfg) e w r
  = serve TypeByExtension cfg e w r.
Proof.
  unfold serve. destruct (mux (URLPath r)) as [[| | |]|]; reflexivity.
Qed.

(** C10: the first [Fprintf] of [listHandler] is given the format and
    no operand.  The response to GET /list does not depend on the two
    HTML fragments of the configuration, and a list page sent with
    status 200 carries [%!s(MISSING)] where each [%s] of the format
    stood (and [%!;(MISSING)] for the percent sign of [width: 100%;]),
    followed by one row for each entry of the file list and the closing
    part of the page. *)
Theorem C10_list_preamble
        (TypeByExtension : string -> string)
        (cfg : Config) (e : Env) (w : World) (r : Request)
        (head body_ : string) :
  URLPath r = "/list" ->
  serve TypeByExtension (with_fragments head body_ cfg) e w r
  = serve TypeByExtension cfg e w r /\
  (forall resp,
      fst (serve TypeByExtension cfg e w r) = Reply resp ->
      status resp = 200 ->
      exists files,
        getFileList w = inr files /\
        body resp
        = Data (list_head_1 ++ "%!s(MISSING)" ++ list_head_2 ++
                "%!;(MISSING)" ++ list_head_3 ++ "%!s(MISSING)" ++
                list_head_4 ++ String.concat "" (map row files) ++
                list_foot) /\
        forall text, body resp = Data text ->
                     contains text "%!s(MISSING)" = true).
Proof.
  intros Hpath. unfold serve. rewrite Hpath.
  cbn [mux String.eqb Ascii.eqb Bool.eqb handler].
  split; [reflexivity|].
  intros resp Hrun Hst. unfold listHandler in Hrun.
  destruct (String.eqb (Method r) "GET").
  2:{ injection Hrun as <-. discriminate Hst. }
  destruct (getFileList w) as [err|files].
  { injection Hrun as <-. discriminate Hst. }
  rewrite list_head_text, list_foot_text in Hrun.
  rewrite !append_assoc in Hrun. cbn [fst] in Hrun.
  remember (list_head_1 ++ "%!s(MISSING)" ++ list_head_2 ++
            "%!;(MISSING)" ++ list_head_3 ++ "%!s(MISSING)" ++
            list_head_4 ++ String.concat "" (map row files) ++
            list_foot) as text eqn:Htext.
  assert (Hresp : resp = Page [] text) by congruence.
  exists files. split; [reflexivity|]. rewrite Hresp. cbn [body Page].
  split; [now rewrite Htext|].
  intros text' Heq. assert (text' = text) by congruence. subst text'.
  rewrite Htext. apply contains_append.
Qed.

Lemma C10_list_preamble_witness :
  serve builtin_types
    (with_fragments "h1 { color: red; }" "<p>bye</p>" sample_cfg)
    sample_env nested_world (GET "/list")
  = serve builtin_types sample_cfg sample_env nested_world (GET "/list") /\
  exists text,
    fst (serve builtin_types sample_cfg sample_env nested_world (GET "/list"))
    = Reply (Page [] text) /\
    contains text "%!s(MISSING)" = true.
Proof.
  destruct (C10_list_preamble builtin_types sample_cfg sample_env
              nested_world (GET "/list")
              "h1 { color: red; }" "<p>bye</p>" eq_refl) as [Hsame Hpage].
  split; [exact Hsame|].
  pose (run := fst (serve builtin_types sample_cfg sample_env nested_world
                      (GET "/list"))).
  pose (text := match run with
                | Reply {| body := Data text |} => text
                | _ => ""
                end).
  assert (Hrun : run = Reply (Page [] text)) by (vm_compute; reflexivity).
  exists text. split; [exact Hrun|].
  destruct (Hpage (Page [] text) Hrun eq_refl) as (files & _ & _ & Hin).
  exact (Hin text eq_refl).
Defined.

(* ================================================================= *)
(** * Further properties of the handlers *)

Section RouteFacts.
Variable TypeByExtension : string -> string.

Lemma prefix_length (a s : string) :
  String.prefix a s = true -> String.length a <= String.length s.
Proof.
  revert s. induction a as [|c a IH]; intros s H; [apply Nat.le_0_l|].
  destruct s as [|d s]; cbn [String.prefix] in H; [discriminate H|].
  cbn [String.length]. apply le_n_S. apply IH.
  now destruct (ascii_dec c d).
Qed.

Lemma mux_file_inv (p : string) :
  mux p = Some RouteFile -> String.prefix "/file/" p = true.
Proof.
  unfold mux.
  destruct (String.eqb p "/upload"); [discriminate|].
  destruct (String.eqb p "/list"); [discriminate|].
  destruct (String.prefix "/file/" p); [reflexivity|].
  destruct (String.eqb p "/file"); discriminate.
Qed.

End RouteFacts.

(** X1: the index page is the literal of [indexHandler] with the two
    HTML fragments of the configuration put in as they are, nothing
    escaped; the handler reads neither the path nor the world, and
    leaves the world as it is. *)
Theorem X1_index_page
        (cfg : Config) (e : Env) (w : World) (r : Request) :
  Method r = "GET" ->
  indexHandler cfg e w r
  = (Reply {| status := 200; header := [];
              body := Data (index_page_1 ++ CustomHTMLHead cfg ++
                            index_page_2 ++ CustomHTMLBody cfg ++
                            index_page_3) |}, w).
Proof.
  intros Hm. unfold indexHandler. rewrite Hm.
  cbn [String.eqb Ascii.eqb Bool.eqb]. reflexivity.
Qed.

Lemma X1_index_page_witness :
  exists text,
    indexHandler
      (with_fragments "</style><script>alert(1)</script>" "<b>hi</b>"
         sample_cfg)
      sample_env nested_world (GET "/")
    = (Reply (Page [] text), nested_world) /\
    contains text "</style><script>alert(1)</script>" = true /\
    contains text "<b>hi</b>" = true.
Proof.
  eexists. split; [|split].
  - exact (X1_index_page
             (with_fragments "</style><script>alert(1)</script>"
                "<b>hi</b>" sample_cfg)
             sample_env nested_world (GET "/") eq_refl).
  - vm_compute. reflexivity.
  - vm_compute. reflexivity.
Defined.

(** X2: the pattern [/] catches every path that is not [/upload],
    [/list] or below [/file]: a request with such a path, whatever it
    is, is answered by [indexHandler], with the upload form for a GET,
    not with 404. *)
Theorem X2_catch_all
        (TypeByExtension : string -> string)
        (cfg : Config) (e : Env) (w : World) (r : Request) :
  canonical (URLPath r) ->
  URLPath r <> "/upload" ->
  URLPath r <> "/list" ->
  URLPath r <> "/file" ->
  String.prefix "/file/" (URLPath r) = false ->
  serve TypeByExtension cfg e w r = indexHandler cfg e w r /\
  (Method r = "GET" ->
   status_of (fst (serve TypeByExtension cfg e w r)) = Some 200).
Proof.
  intros _ H1 H2 H3 H4.
  assert (Hserve : serve TypeByExtension cfg e w r = indexHandler cfg e w r).
  { unfold serve, mux. apply String.eqb_neq in H1, H2, H3.
    now rewrite H1, H2, H3, H4. }
  split; [exact Hserve|].
  intros Hm. rewrite Hserve. unfold indexHandler. now rewrite Hm.
Qed.

Lemma X2_catch_all_witness :
  status_of (fst (serve builtin_types sample_cfg sample_env nested_world
                    (GET "/no/such/page"))) = Some 200.
Proof.
  apply (X2_catch_all builtin_types sample_cfg sample_env nested_world
           (GET "/no/such/page"));
    try reflexivity; discriminate.
Defined.

(** X3: [fileHandler] slices the path at the length of [/file/]
    without a check, and panics on a GET whose path is shorter; the
    mux hands it only paths that begin with [/file/], so that no
    handler panics on a request the mux dispatches to it. *)
Theorem X3_no_panic
        (TypeByExtension : string -> string)
        (cfg : Config) (e : Env) (w : World) (r : Request) (rt : route) :
  (fileHandler TypeByExtension cfg e w r = (Panic, w) <->
   Method r = "GET" /\ String.length (URLPath r) < String.length "/file/") /\
  (mux (URLPath r) = Some rt ->
   fst (handler TypeByExtension rt cfg e w r) <> Panic).
Proof.
  split.
  - unfold fileHandler.
    destruct (String.eqb_spec (Method r) "GET") as [Hm|Hm].
    + destruct (Nat.ltb_spec (String.length (URLPath r))
                  (String.length "/file/")) as [Hlt|Hge].
      * split; [now intros _ | reflexivity].
      * split.
        -- destruct (match stat_error _ with Some _ => _ | None => _ end);
             discriminate.
        -- intros [_ Hlt]. exfalso. revert Hlt. now apply Nat.le_ngt.
    + split; [discriminate | now intros [Hm' _]].
  - intros Hmux. destruct rt; cbn [handler].
    + unfold indexHandler. now destruct (String.eqb (Method r) "GET").
    + rewrite upload_response.
      destruct (String.eqb (Method r) "POST"); [|discriminate].
      destruct (FormFile r) as [[filename data]|]; [|discriminate].
      destruct (OpenFile_create _ _) as [?|?]; [|discriminate].
      destruct (copy_fault e); discriminate.
    + unfold listHandler. destruct (String.eqb (Method r) "GET");
        [|discriminate].
      destruct (getFileList w); discriminate.
    + apply mux_file_inv, prefix_length in Hmux.
      unfold fileHandler.
      destruct (String.eqb (Method r) "GET"); [|discriminate].
      apply Nat.ltb_ge in Hmux. rewrite Hmux.
      destruct (match stat_error _ with Some _ => _ | None => _ end);
        discriminate.
Qed.

(** X4: only an upload writes to the disk: [indexHandler] and
    [fileHandler] leave the world as it is, and [listHandler] at most
    prints a diagnostic. *)
Theorem X4_read_only_handlers
        (TypeByExtension : string -> string)
        (cfg : Config) (e : Env) (w : World) (r : Request) :
  snd (indexHandler cfg e w r) = w /\
  snd (fileHandler TypeByExtension cfg e w r) = w /\
  disk (snd (listHandler cfg e w r)) = disk w /\
  (forall files, getFileList w = inr files ->
                 snd (listHandler cfg e w r) = w).
Proof.
  split; [|split; [|split]].
  - unfold indexHandler. now destruct (String.eqb (Method r) "GET").
  - unfold fileHandler. destruct (String.eqb (Method r) "GET");
      [|reflexivity].
    destruct (Nat.ltb _ _); [reflexivity|].
    now destruct (match stat_error _ with Some _ => _ | None => _ end).
  - unfold listHandler. destruct (String.eqb (Method r) "GET");
      [|reflexivity].
    now destruct (getFileList w).
  - intros files Hlist. unfold listHandler.
    destruct (String.eqb (Method r) "GET"); [|reflexivity].
    now rewrite Hlist.
Qed.

(** X5: when the storage directory is missing, or a directory in it
    cannot be read, [getFileList] returns the error of the walk, and
    GET /list is answered 500 with a diagnostic on the console; no part
    of the list page is sent. *)
Theorem X5_list_failure
        (cfg : Config) (e : Env) (w : World) (r : Request) :
  Method r = "GET" ->
  (lookup uploadsDir (disk w) = None ->
   getFileList w = inl (PathError ENOENT) /\
   listHandler cfg e w r
   = (Reply (Error [] "Internal Server Error" StatusInternalServerError),
      Println list_failed w)) /\
  (forall es,
      lookup uploadsDir (disk w) = Some (Dir es) ->
      well_named (Dir es) ->
      readable (Dir es) = false ->
      listHandler cfg e w r
      = (Reply (Error [] "Internal Server Error" StatusInternalServerError),
         Println list_failed w)).
Proof.
  intros Hm. split.
  - intros Hroot.
    assert (Hlist : getFileList w = inl (PathError ENOENT)).
    { unfold getFileList, Walk.
      rewrite Stat_top by reflexivity. now rewrite Hroot. }
    split; [exact Hlist|].
    unfold listHandler. now rewrite Hm, Hlist.
  - intros es Hroot Hwf Hread.
    pose proof (getFileList_dir w (Dir es) Hroot eq_refl Hwf) as Hlist.
    rewrite Hread in Hlist.
    unfold listHandler. now rewrite Hm, Hlist.
Qed.

Lemma X5_list_failure_witness :
  status_of (fst (listHandler sample_cfg sample_env bare_world (GET "/list")))
  = Some 500 /\
  status_of (fst (listHandler sample_cfg sample_env locked_world
                    (GET "/list")))
  = Some 500.
Proof.
  destruct (X5_list_failure sample_cfg sample_env bare_world (GET "/list")
              eq_refl) as [Hmissing _].
  destruct (X5_list_failure sample_cfg sample_env locked_world (GET "/list")
              eq_refl) as [_ Hlocked].
  split.
  - now rewrite (proj2 (Hmissing eq_refl)).
  - rewrite (Hlocked _ eq_refl); [reflexivity | | reflexivity].
    simpl. repeat split.
Defined.

Section UUIDFacts.

Lemma below_cases (n : nat) (P : Z -> Prop) (x : Z) :
  (0 <= x < Z.of_nat n)%Z ->
  (forall k, k < n -> P (Z.of_nat k)) ->
  P x.
Proof.
  intros Hx H. rewrite <- (Z2Nat.id x) by apply Hx.
  apply H. apply Nat2Z.inj_lt. rewrite Z2Nat.id by apply Hx. apply Hx.
Qed.

Lemma land_ones_bound (b : Z) (n : nat) :
  (0 <= Z.land b (Z.ones (Z.of_nat n)) < Z.of_nat (2 ^ n))%Z.
Proof.
  rewrite Z.land_ones by apply Nat2Z.is_nonneg.
  rewrite Nat2Z.inj_pow. apply Z.mod_pos_bound.
  apply Z.pow_pos_nonneg; [reflexivity | apply Nat2Z.is_nonneg].
Qed.

(** The digit of the version: the high half of byte 6 is 4. *)
Lemma version_digit (b : Z) :
  uuid.hex_digit (Z.shiftr (Z.lor (Z.land b 15) 64) 4) = "4"%char.
Proof.
  apply (below_cases 16 (fun x =>
           uuid.hex_digit (Z.shiftr (Z.lor x 64) 4) = "4"%char)).
  - exact (land_ones_bound b 4).
  - intros k Hk.
    do 16 (destruct k as [|k]; [reflexivity|]).
    exfalso. revert Hk. apply Nat.le_ngt. do 16 apply le_n_S.
    apply Nat.le_0_l.
Qed.

(** The digit of the variant: the high half of byte 8 is 8, 9, a or
    b. *)
Lemma variant_digit (b : Z) :
  In (uuid.hex_digit (Z.shiftr (Z.lor (Z.land b 63) 128) 4))
     ["8"; "9"; "a"; "b"]%char.
Proof.
  apply (below_cases 64 (fun x =>
           In (uuid.hex_digit (Z.shiftr (Z.lor x 128) 4))
              ["8"; "9"; "a"; "b"]%char)).
  - exact (land_ones_bound b 6).
  - intros k Hk.
    do 64 (destruct k as [|k]; [vm_compute; tauto|]).
    exfalso. revert Hk. apply Nat.le_ngt. do 64 apply le_n_S.
    apply Nat.le_0_l.
Qed.

Lemma hex_digit_not_dot (n : Z) : Ascii.eqb (uuid.hex_digit n) dot = false.
Proof. apply Ascii.eqb_neq. apply hex_digit_plain. Qed.

Lemma hex_digit_not_slash (n : Z) :
  Ascii.eqb (uuid.hex_digit n) slash = false.
Proof. apply Ascii.eqb_neq. apply hex_digit_plain. Qed.

(** What [uuid.NewRandom] returns has sixteen bytes. *)
Lemma NewRandom_bytes (src : option (list Z)) (u : uuid.UUID) :
  uuid.NewRandom src = Some u ->
  exists b0 b1 b2 b3 b4 b5 b6 b7 b8 b9 b10 b11 b12 b13 b14 b15,
    u = [b0; b1; b2; b3; b4; b5;
         Z.lor (Z.land b6 15) 64; b7;
         Z.lor (Z.land b8 63) 128; b9; b10; b11; b12; b13; b14; b15].
Proof.
  unfold uuid.NewRandom. destruct src as [bs|]; [|discriminate].
  destruct (Nat.ltb_spec (length bs) 16) as [Hlt|Hge]; [discriminate|].
  do 16 (destruct bs as [|? bs];
         [exfalso; revert Hge; apply Nat.lt_nge; cbn [length];
          repeat apply -> Nat.succ_lt_mono; apply Nat.lt_0_succ|]).
  intros H. injection H as <-. cbn [firstn map uuid.set_byte skipn app].
  now eexists _, _, _, _, _, _, _, _, _, _, _, _, _, _, _, _.
Qed.

End UUIDFacts.

(** X6: when the random source delivers its sixteen bytes,
    [generateUUID] returns the canonical text of a version-4 UUID and
    prints nothing: thirty-six bytes, dashes at 8, 13, 18 and 23, the
    digit 4 for the version at 14, one of 8, 9, a, b for the variant at
    19, and neither a slash nor a dot anywhere. *)
Theorem X6_uuid_text
        (e : Env) (w : World) (u : uuid.UUID) :
  uuid.NewRandom (rand e) = Some u ->
  generateUUID e w = (uuid.String u, w) /\
  String.length (uuid.String u) = 36 /\
  (forall k, In k [8; 13; 18; 23] ->
             String.get k (uuid.String u) = Some "-"%char) /\
  String.get 14 (uuid.String u) = Some "4"%char /\
  (exists c, String.get 19 (uuid.String u) = Some c /\
             In c ["8"; "9"; "a"; "b"]%char) /\
  mem slash (uuid.String u) = false /\
  mem dot (uuid.String u) = false.
Proof.
  intros Hsrc.
  split; [unfold generateUUID; now rewrite Hsrc|].
  destruct (NewRandom_bytes _ _ Hsrc)
    as (b0 & b1 & b2 & b3 & b4 & b5 & b6 & b7 & b8 & b9 & b10 & b11 &
        b12 & b13 & b14 & b15 & ->).
  unfold uuid.String.
  cbn [firstn skipn uuid.hex_encode append].
  split; [reflexivity|]. split.
  { intros k [<-|[<-|[<-|[<-|[]]]]]; reflexivity. }
  split.
  { cbn [String.get]. now rewrite version_digit. }
  split.
  { eexists. split; [reflexivity|]. apply variant_digit. }
  split.
  - cbn [mem]. now rewrite !hex_digit_not_slash.
  - cbn [mem]. now rewrite !hex_digit_not_dot.
Qed.

Lemma X6_uuid_text_witness :
  generateUUID sample_env empty_world
  = ("01020304-0506-4708-890a-0b0c0d0e0f10", empty_world) /\
  String.get 14 "01020304-0506-4708-890a-0b0c0d0e0f10" = Some "4"%char.
Proof.
  destruct (X6_uuid_text sample_env empty_world
              [1; 2; 3; 4; 5; 6; 71; 8; 137; 10; 11; 12; 13; 14; 15; 16]%Z
              eq_refl) as (Hgen & _ & _ & Hversion & _).
  split; [exact Hgen | exact Hversion].
Defined.

(** X7: [generateUUID] returns the empty string exactly when the random
    source fails (an error, or fewer than sixteen bytes); it then
    prints one diagnostic, and prints nothing otherwise. *)
Theorem X7_uuid_failure (e : Env) (w : World) :
  (fst (generateUUID e w) = "" <-> uuid.NewRandom (rand e) = None) /\
  (uuid.NewRandom (rand e) = None <->
   match rand e with
   | None => True
   | Some bs => length bs < 16
   end) /\
  snd (generateUUID e w)
  = match uuid.NewRandom (rand e) with
    | None => {| disk := disk w;
                 console := (console w ++ [uuid_failed])%list |}
    | Some _ => w
    end.
Proof.
  split; [|split].
  - unfold generateUUID.
    destruct (uuid.NewRandom (rand e)) as [u|]; [|now split].
    split; [|discriminate].
    cbn [fst]. destruct (uuid_String_head u) as (c & rest & -> & _).
    discriminate.
  - unfold uuid.NewRandom. destruct (rand e) as [bs|]; [|now split].
    destruct (Nat.ltb_spec (length bs) 16) as [Hlt|Hge].
    + now split.
    + split; [discriminate|]. intros Hlt. exfalso. revert Hlt.
      now apply Nat.le_ngt.
  - unfold generateUUID. now destruct (uuid.NewRandom (rand e)).
Qed.

(** X8: [writeLog] changes no entry of the working directory but
    [log.txt].  When [log.txt] cannot be opened for writing (it is a
    directory) nothing is written and a diagnostic is printed; when the
    write breaks off after [k] bytes, those bytes stay at the end of
    the log and the diagnostic is printed; when all goes well nothing
    is printed. *)
Theorem X8_writeLog_outcomes (m : string) (e : Env) (w : World) :
  (forall k, k <> logFileName ->
             lookup k (disk (writeLog m e w)) = lookup k (disk w)) /\
  (forall n,
      lookup logFileName (disk w) = Some n ->
      is_file n = false ->
      writeLog m e w = Println log_failed w) /\
  (forall old k,
      lookup logFileName (disk w) = Some (File old) ->
      log_fault e = Some k ->
      lookup logFileName (disk (writeLog m e w))
      = Some (File (old ++ take k (m ++ newline))) /\
      console (writeLog m e w) = (console w ++ [log_failed])%list) /\
  (log_fault e = None ->
   (forall n, lookup logFileName (disk w) = Some n -> is_file n = true) ->
   console (writeLog m e w) = console w).
Proof.
  split; [|split; [|split]].
  - intros k Hk. now apply writeLog_other.
  - intros n Hn Hdir. unfold writeLog.
    rewrite OpenFile_create_top by reflexivity. rewrite Hn.
    now destruct n.
  - intros old k Hold Hfault. unfold writeLog.
    rewrite OpenFile_create_top by reflexivity. rewrite Hold.
    rewrite Sprintf_line. unfold write_at. rewrite Hfault.
    unfold contents. cbn [get_node put_node disk set_disk Println console].
    rewrite Hold, overwrite_end.
    split; [apply lookup_put_entry_same | reflexivity].
  - intros Hfault Hfile. unfold writeLog.
    rewrite OpenFile_create_top by reflexivity.
    unfold write_at. rewrite Hfault.
    destruct (lookup logFileName (disk w)) as [n|] eqn:Hn.
    + specialize (Hfile n eq_refl). now destruct n.
    + reflexivity.
Qed.

Lemma X8_writeLog_outcomes_witness :
  writeLog "notes.txt" sample_env log_dir_world
  = Println log_failed log_dir_world /\
  lookup logFileName
    (disk (writeLog "notes.txt" (with_log_fault (Some 3) sample_env)
             nested_world))
  = Some (File "not").
Proof.
  destruct (X8_writeLog_outcomes "notes.txt" sample_env log_dir_world)
    as (_ & Hdir & _).
  destruct (X8_writeLog_outcomes "notes.txt"
              (with_log_fault (Some 3) sample_env) nested_world)
    as (_ & _ & Hbreak & _).
  split.
  - exact (Hdir (Dir []) eq_refl eq_refl).
  - exact (proj1 (Hbreak "" 3 eq_refl eq_refl)).
Defined.

Section UploadWorldFacts.

(** The world an upload leaves behind, case by case. *)
Lemma upload_world (cfg : Config) (e : Env) (w : World) (r : Request) :
  snd (uploadHandler cfg e w r)
  = if String.eqb (Method r) "POST" then
      match FormFile r with
      | None => Println parse_failed w
      | Some (filename, data) =>
          let w1 := snd (generateUUID e w) in
          match OpenFile_create (disk w)
                  (filepath.Join [uploadsDir; identifier e filename]) with
          | Err _ => Println create_failed w1
          | Ok (d1, f) =>
              match copy_fault e with
              | Some k =>
                  Println save_failed (set_disk (copied d1 f (take k data)) w1)
              | None =>
                  writeLog (log_line cfg e filename) e
                    (set_disk (copied d1 f data) w1)
              end
          end
      end
    else w.
Proof.
  unfold uploadHandler.
  destruct (String.eqb (Method r) "POST"); [|reflexivity].
  destruct (FormFile r) as [[filename data]|]; [|reflexivity].
  pose proof (generateUUID_text e w) as Ht.
  pose proof (generateUUID_disk e w) as Hd.
  destruct (generateUUID e w) as [id w1]. cbn [fst snd] in *. subst id.
  fold (identifier e filename). rewrite Hd.
  destruct (OpenFile_create _ _) as [[d1 f]|err]; [|reflexivity].
  unfold write_at. destruct (copy_fault e); cbn [negb snd]; [reflexivity|].
  rewrite Sprintf_stamp. reflexivity.
Qed.

Lemma ReadFile_Stat (d : entries) (p data : string) :
  ReadFile d p = Ok data -> Stat d p = Ok (File data).
Proof.
  unfold ReadFile. destruct (Stat d p) as [[old|es|]|err]; try discriminate.
  now intros [= ->].
Qed.

End UploadWorldFacts.

(** X9: an upload, whatever comes of it, changes no entry of the
    working directory other than the storage directory and the log:
    the configuration file and everything else stay as they are. *)
Theorem X9_upload_frame
        (cfg : Config) (e : Env) (w : World) (r : Request) (k : string) :
  k <> uploadsDir ->
  k <> logFileName ->
  lookup k (disk (snd (uploadHandler cfg e w r))) = lookup k (disk w).
Proof.
  intros Hu Hl. rewrite upload_world.
  destruct (String.eqb (Method r) "POST"); [|reflexivity].
  destruct (FormFile r) as [[filename data]|]; [|reflexivity].
  cbv zeta.
  pose proof (target_of_upload e filename) as Hp.
  destruct (OpenFile_create _ _) as [[d1 f]|err] eqn:Hopen.
  - destruct (copy_fault e) as [n|].
    + cbn [disk Println set_disk].
      exact (copy_elsewhere _ _ _ _ _ k Hp Hopen Hu).
    + rewrite writeLog_other by assumption. cbn [disk set_disk].
      exact (copy_elsewhere _ _ _ _ _ k Hp Hopen Hu).
  - cbn [disk Println]. now rewrite generateUUID_disk.
Qed.

Lemma X9_upload_frame_witness :
  lookup "config.yml"
    (disk (snd (uploadHandler sample_cfg sample_env home_world
                  (POST "/upload" "../config.yml" "port: 1"))))
  = Some (File "port: 8080").
Proof.
  apply (X9_upload_frame sample_cfg sample_env home_world
           (POST "/upload" "../config.yml" "port: 1") "config.yml");
    discriminate.
Defined.

Section NameFacts.

Lemma split_after_slash (a b : string) :
  exists l, l <> [] /\ split (a ++ String slash b) = (l ++ split b)%list.
Proof.
  induction a as [|c a (l & Hl & IH)].
  - exists [""]. split; [discriminate | reflexivity].
  - cbn [append split]. rewrite IH.
    destruct (Ascii.eqb c slash).
    + exists ("" :: l). split; [discriminate | reflexivity].
    + destruct l as [|h t]; [contradiction|].
      exists (String c h :: t). split; [discriminate | reflexivity].
Qed.

Lemma last_app_cons (A : Type) (l : list A) (h d : A) (t : list A) :
  last (l ++ h :: t) d = last (h :: t) d.
Proof.
  induction l as [|x l IH]; [reflexivity|].
  cbn [app]. rewrite <- IH.
  destruct (l ++ h :: t)%list eqn:E; [|reflexivity].
  now destruct l.
Qed.

(** The extension is the one of the last element of the name. *)
Lemma Ext_last_element (a b : string) :
  filepath.Ext (a ++ String slash b) = filepath.Ext b.
Proof.
  unfold filepath.Ext.
  destruct (split_after_slash a b) as (l & _ & ->).
  destruct (split b) as [|h t] eqn:Hb; [now apply split_not_nil in Hb|].
  apply f_equal, last_app_cons.
Qed.

Lemma mem_count (c : ascii) (s : string) :
  mem c s = false -> count c s = 0.
Proof.
  induction s as [|d s IH]; [reflexivity|].
  cbn [mem count]. destruct (Ascii.eqb d c); [discriminate|]. exact IH.
Qed.

(** No field of [v] holds more dots than [v] does. *)
Lemma fields_count (v : string) :
  Forall (fun x => count dot x <= count dot v) (fields v).
Proof.
  induction v as [|c v IH]; [repeat constructor|].
  cbn [fields count].
  assert (Hweak : Forall (fun x =>
                    count dot x <= ((if Ascii.eqb c dot then 1 else 0) +
                                  count dot v)) (fields v)).
  { eapply Forall_impl; [|exact IH]. intros x Hx.
    eapply Nat.le_trans; [exact Hx | apply Nat.le_add_l]. }
  destruct (Ascii.eqb c slash || Ascii.eqb c "\"%char).
  - constructor; [apply Nat.le_0_l | exact Hweak].
  - destruct (fields v) as [|h t].
    { constructor; [|constructor].
      cbn [count]. apply Nat.add_le_mono_l, Nat.le_0_l. }
    inversion IH as [|? ? Hh Ht]; subst.
    inversion Hweak as [|? ? _ Ht']; subst.
    constructor; [|exact Ht'].
    cbn [count]. now apply Nat.add_le_mono_l.
Qed.

End NameFacts.

Section IdentifierShape.

Lemma hex_digit_hex (n : Z) :
  In (uuid.hex_digit n)
     ["0"; "1"; "2"; "3"; "4"; "5"; "6"; "7"; "8"; "9";
      "a"; "b"; "c"; "d"; "e"; "f"]%char.
Proof.
  unfold uuid.hex_digit, uuid.hextable.
  set (k := Z.to_nat (Z.land n 15)). clearbody k.
  do 16 (destruct k as [|k]; [cbn; tauto|]).
  cbn. tauto.
Qed.

(** The text [generateUUID] returns is empty or begins with a
    hexadecimal digit, and holds no dot. *)
Lemma uuid_text_shape (e : Env) :
  mem dot (uuid_text e) = false /\
  (uuid_text e = "" \/
   exists n rest, uuid_text e = String (uuid.hex_digit n) rest).
Proof.
  unfold uuid_text.
  destruct (uuid.NewRandom (rand e)) as [u|] eqn:Hsrc; [|now split; [|left]].
  destruct (NewRandom_bytes _ _ Hsrc)
    as (b0 & b1 & b2 & b3 & b4 & b5 & b6 & b7 & b8 & b9 & b10 & b11 &
        b12 & b13 & b14 & b15 & ->).
  unfold uuid.String. cbn [firstn skipn uuid.hex_encode append].
  split.
  - cbn [mem]. now rewrite !hex_digit_not_dot.
  - right. now eexists _, _.
Qed.

Lemma count_Ext (f : string) : count dot (filepath.Ext f) <= 1.
Proof.
  unfold filepath.Ext.
  pose proof (from_last_dot_shape (last (split f) "")) as H.
  destruct (filepath.from_last_dot _) as [|c x]; [apply Nat.le_0_l|].
  destruct H as (-> & Hx & _). cbn [count].
  rewrite (mem_count _ _ Hx). reflexivity.
Qed.

Lemma count_identifier (e : Env) (filename : string) :
  count dot (identifier e filename) <= 1.
Proof.
  unfold identifier. rewrite count_append.
  rewrite (mem_count _ _ (proj1 (uuid_text_shape e))).
  apply count_Ext.
Qed.

(** The request path of a stored upload has no [..] element... *)
Lemma identifier_no_dotdot (e : Env) (filename : string) :
  containsDotDot ("/file/" ++ identifier e filename) = false.
Proof.
  unfold containsDotDot.
  destruct (existsb _ _) eqn:E; [|reflexivity]. exfalso.
  apply existsb_exists in E. destruct E as (x & Hin & Hx).
  apply String.eqb_eq in Hx. subst x.
  pose proof (fields_count ("/file/" ++ identifier e filename)) as Hall.
  rewrite Forall_forall in Hall. specialize (Hall _ Hin).
  rewrite count_append in Hall. cbn in Hall.
  pose proof (count_identifier e filename) as Hle.
  revert Hall. apply Nat.lt_nge. now apply Nat.lt_succ_r.
Qed.

Lemma has_suffix_no_slash (s t : string) :
  mem slash s = false -> has_suffix s (String slash t) = false.
Proof.
  induction s as [|c s IH]; [reflexivity|].
  cbn [mem has_suffix String.eqb]. intros H.
  apply orb_false_iff in H. destruct H as [Hc Hs].
  rewrite Hc. cbn [orb]. now apply IH.
Qed.

Lemma identifier_not_index_html (e : Env) (filename : string) :
  identifier e filename <> "index.html".
Proof.
  unfold identifier. intros H.
  destruct (uuid_text_shape e) as [_ [He|(n & rest & He)]]; rewrite He in H.
  - cbn [append] in H.
    pose proof (from_last_dot_shape (last (split filename) "")) as Hs.
    unfold filepath.Ext in H.
    destruct (filepath.from_last_dot _) as [|c x]; [discriminate H|].
    destruct Hs as (-> & _). discriminate H.
  - cbn [append] in H. injection H as Hc _.
    pose proof (hex_digit_hex n) as Hin. rewrite Hc in Hin.
    cbn [In] in Hin.
    repeat (destruct Hin as [Hin|Hin]; [discriminate Hin|]).
    exact Hin.
Qed.

(** ... and does not end in [/index.html]. *)
Lemma identifier_no_index (e : Env) (filename : string) :
  has_suffix ("/file/" ++ identifier e filename) "/index.html" = false.
Proof.
  pose proof (identifier_not_index_html e filename) as Hne.
  apply String.eqb_neq in Hne.
  cbn [append has_suffix String.eqb Ascii.eqb Bool.eqb orb andb].
  rewrite Hne. cbn [orb].
  apply has_suffix_no_slash, identifier_no_slash.
Qed.

End IdentifierShape.

(** X10: the file name a client sends decides nothing about where the
    upload is written but through its extension, which is the one of
    its last element: whatever the name, with slashes or [..] in it,
    the upload goes to the storage root itself or to an entry of
    it. *)
Theorem X10_target_confined (e : Env) (w : World) (filename : string) :
  under_uploads
    (filepath.Join
       [uploadsDir; fst (generateUUID e w) ++ filepath.Ext filename]) /\
  (forall dir,
      filepath.Ext (dir ++ "/" ++ filename) = filepath.Ext filename) /\
  mem slash (filepath.Ext filename) = false.
Proof.
  split; [|split].
  - rewrite generateUUID_text. apply target_of_upload.
  - intros dir. apply Ext_last_element.
  - apply Ext_no_slash.
Qed.

(** X11: when the copy of the body breaks off, the upload is answered
    500 and nothing is logged, but the file stays in the storage
    directory with the bytes that were written: the handler does not
    remove it. *)
Theorem X11_interrupted_copy
        (cfg : Config) (e : Env) (w : World) (r : Request)
        (filename data : string) (k : nat) (d1 : entries) (f : fd) :
  Method r = "POST" ->
  FormFile r = Some (filename, data) ->
  OpenFile_create (disk w)
    (filepath.Join [uploadsDir; identifier e filename]) = Ok (d1, f) ->
  copy_fault e = Some k ->
  fst (uploadHandler cfg e w r)
  = Reply (Error [] "Internal Server Error" StatusInternalServerError) /\
  ReadFile (disk (snd (uploadHandler cfg e w r)))
    (filepath.Join [uploadsDir; identifier e filename])
  = Ok (overwrite
          (held (disk w) (filepath.Join [uploadsDir; identifier e filename]))
          0 (take k data)) /\
  lookup logFileName (disk (snd (uploadHandler cfg e w r)))
  = lookup logFileName (disk w).
Proof.
  intros Hm Hf Hopen Hcopy.
  pose proof (target_of_upload e filename) as Hp.
  split; [|split].
  - rewrite upload_response, Hm, Hf.
    cbn [String.eqb Ascii.eqb Bool.eqb]. now rewrite Hopen, Hcopy.
  - rewrite upload_world, Hm, Hf.
    cbn [String.eqb Ascii.eqb Bool.eqb]. cbv zeta.
    rewrite Hopen, Hcopy. cbn [disk Println set_disk].
    exact (copy_then_read _ _ _ _ _ Hp Hopen).
  - rewrite upload_world, Hm, Hf.
    cbn [String.eqb Ascii.eqb Bool.eqb]. cbv zeta.
    rewrite Hopen, Hcopy. cbn [disk Println set_disk].
    apply (copy_elsewhere _ _ _ _ _ logFileName Hp Hopen). discriminate.
Qed.

Lemma X11_interrupted_copy_witness :
  status_of
    (fst (uploadHandler sample_cfg
            {| rand := rand sample_env; now := now sample_env;
               copy_fault := Some 2; log_fault := None |}
            home_world (POST "/upload" "notes.txt" "bye")))
  = Some 500 /\
  ReadFile
    (disk (snd (uploadHandler sample_cfg
                  {| rand := rand sample_env; now := now sample_env;
                     copy_fault := Some 2; log_fault := None |}
                  home_world (POST "/upload" "notes.txt" "bye"))))
    "uploads/01020304-0506-4708-890a-0b0c0d0e0f10.txt"
  = Ok "by".
Proof.
  pose (env := {| rand := rand sample_env; now := now sample_env;
                  copy_fault := Some 2; log_fault := None |}).
  pose (opened := OpenFile_create (disk home_world)
                    (filepath.Join [uploadsDir; identifier env "notes.txt"])).
  pose (d1 := match opened with Ok (d1, _) => d1 | Err _ => [] end).
  pose (f := match opened with Ok (_, f) => f | Err _ => [] end).
  assert (Hopen : opened = Ok (d1, f)) by (vm_compute; reflexivity).
  destruct (X11_interrupted_copy sample_cfg env home_world
              (POST "/upload" "notes.txt" "bye") "notes.txt" "bye" 2 d1 f
              eq_refl eq_refl Hopen eq_refl) as (Hresp & Hread & _).
  split.
  - exact (f_equal status_of Hresp).
  - exact Hread.
Defined.

(** X12: what is uploaded can be fetched: after a successful upload to
    a path that held nothing (or a file no longer than the body),
    GET /file/<identifier> answers 200 with exactly the uploaded bytes,
    under the two headers of [fileHandler], whatever the configuration
    then is. *)
Theorem X12_upload_then_get
        (TypeByExtension : string -> string)
        (cfg : Config) (e : Env) (w : World) (r : Request)
        (filename data : string) (resp : Response) (w' : World)
        (cfg' : Config) (e' : Env) :
  FormFile r = Some (filename, data) ->
  uploadHandler cfg e w r = (Reply resp, w') ->
  status resp = 200 ->
  String.length
    (held (disk w) (filepath.Join [uploadsDir; identifier e filename]))
  <= String.length data ->
  fileHandler TypeByExtension cfg' e' w'
    (GET ("/file/" ++ identifier e filename))
  = (Reply {| status := 200;
              header := file_headers TypeByExtension
                          (GET ("/file/" ++ identifier e filename));
              body := Data data |}, w').
Proof.
  intros Hf Hrun Hst Hlen.
  pose proof (upload_stores _ _ _ _ _ _ _ _ Hf Hrun Hst) as Hread.
  cbv zeta in Hread.
  rewrite overwrite_start, drop_beyond, append_nil_r in Hread
    by assumption.
  apply ReadFile_Stat in Hread.
  assert (Hres : resolved (GET ("/file/" ++ identifier e filename))
                 = filepath.Join [uploadsDir; identifier e filename]).
  { unfold resolved, GET. cbn [URLPath].
    now rewrite (drop_append "/file/" (identifier e filename)). }
  rewrite fileHandler_get.
  - rewrite Hres, Hread. f_equal. f_equal.
    apply ServeFile_regular; [| |exact Hread].
    + apply identifier_no_dotdot.
    + apply identifier_no_index.
  - reflexivity.
  - unfold GET. cbn [URLPath]. rewrite length_append. apply Nat.le_add_r.
Qed.

Lemma X12_upload_then_get_witness :
  exists w',
    snd (uploadHandler sample_cfg sample_env home_world
           (POST "/upload" "report.final.pdf" "%PDF-1.7")) = w' /\
    exists h,
      fileHandler builtin_types sample_cfg sample_env w'
        (GET "/file/01020304-0506-4708-890a-0b0c0d0e0f10.pdf")
      = (Reply {| status := 200; header := h; body := Data "%PDF-1.7" |}, w')
      /\ Get "Content-Type" h = "application/pdf".
Proof.
  pose (run := uploadHandler sample_cfg sample_env home_world
                 (POST "/upload" "report.final.pdf" "%PDF-1.7")).
  pose (resp := match fst run with
                | Reply resp => resp
                | Panic => NotFound []
                end).
  assert (Hrun : uploadHandler sample_cfg sample_env home_world
                   (POST "/upload" "report.final.pdf" "%PDF-1.7")
                 = (Reply resp, snd run)) by (vm_compute; reflexivity).
  assert (Hst : status resp = 200) by (vm_compute; reflexivity).
  exists (snd run). split; [reflexivity|].
  eexists. split.
  - apply (X12_upload_then_get builtin_types sample_cfg sample_env
             home_world (POST "/upload" "report.final.pdf" "%PDF-1.7")
             "report.final.pdf" "%PDF-1.7" resp (snd run)
             sample_cfg sample_env eq_refl Hrun Hst).
    vm_compute. apply Nat.le_0_l.
  - reflexivity.
Defined.

Section StorageFacts.

Lemma lookup_In (x : string) (es : entries) (n : node) :
  lookup x es = Some n -> In (x, n) es.
Proof.
  induction es as [|[k v] es IH]; [discriminate|].
  cbn [lookup]. destruct (String.eqb_spec k x) as [->|_].
  - intros [= ->]. now left.
  - intros H. right. now apply IH.
Qed.

Lemma well_named_put (x data : string) (es : entries) :
  valid_name x = true ->
  well_named (Dir es) ->
  well_named (Dir (put_entry x (File data) es)).
Proof.
  intros Hx. induction es as [|[k v] es IH]; intros Hwf.
  - cbn. auto.
  - cbn [well_named] in Hwf. destruct Hwf as (Hk & Hv & Hes).
    cbn [put_entry].
    destruct (String.eqb k x); [|destruct (String.ltb x k)].
    + cbn [well_named]. auto.
    + cbn [well_named]. auto.
    + cbn [well_named]. repeat split; try assumption. now apply IH.
Qed.

Lemma readable_put (x data : string) (es : entries) :
  readable (Dir es) = true ->
  readable (Dir (put_entry x (File data) es)) = true.
Proof.
  induction es as [|[k v] es IH]; intros Hr; [reflexivity|].
  cbn [readable] in Hr. apply andb_true_iff in Hr. destruct Hr as [Hv Hes].
  cbn [put_entry].
  destruct (String.eqb k x); [|destruct (String.ltb x k)]; cbn [readable].
  - exact Hes.
  - cbn [readable] in Hes. now rewrite Hv, Hes.
  - rewrite Hv. cbn [andb]. now apply IH.
Qed.

(** The storage directory once an upload has succeeded: the entries it
    had, with the upload put in under its identifier. *)
Lemma storage_after_upload
      (cfg : Config) (e : Env) (w : World) (r : Request)
      (filename data : string) (resp : Response) (w' : World)
      (es : entries) :
  FormFile r = Some (filename, data) ->
  uploadHandler cfg e w r = (Reply resp, w') ->
  status resp = 200 ->
  lookup uploadsDir (disk w) = Some (Dir es) ->
  valid_name (identifier e filename) = true /\
  exists es' content,
    lookup uploadsDir (disk w') = Some (Dir es') /\
    lookup (identifier e filename) es' = Some (File content) /\
    (well_named (Dir es) -> well_named (Dir es')) /\
    (readable (Dir es) = true -> readable (Dir es') = true).
Proof.
  intros Hf Hrun Hst Hroot.
  destruct (upload_success _ _ _ _ _ _ _ _ Hf Hrun Hst)
    as (Hm & Hcopy & d1 & f & Hopen & _ & ->).
  assert (Hv : valid_name (identifier e filename) = true).
  { destruct (plain_name_cases _ (identifier_no_slash e filename))
      as [H|[H|[H|H]]]; [| |now apply identifier_not_dotdot in H|exact H];
      exfalso; rewrite Join_plain in Hopen by apply identifier_no_slash;
      rewrite H in Hopen; cbn [String.eqb Ascii.eqb Bool.eqb orb] in Hopen;
      rewrite OpenFile_create_top in Hopen by reflexivity;
      fold uploadsDir in Hopen; rewrite Hroot in Hopen; discriminate Hopen. }
  split; [exact Hv|].
  rewrite Join_valid, OpenFile_create_child, Hroot in Hopen by assumption.
  rewrite writeLog_other by discriminate. cbn [disk set_disk].
  unfold copied, contents.
  destruct (lookup (identifier e filename) es) as [[old|sub|]|] eqn:Hid;
    try discriminate Hopen; injection Hopen as <- <-;
    cbn [get_node put_node].
  - rewrite Hroot. rewrite lookup_put_entry_same.
    eexists _, _. split; [reflexivity|].
    split; [apply lookup_put_entry_same|].
    split; [now apply well_named_put | now apply readable_put].
  - rewrite !lookup_put_entry_same.
    eexists _, _. split; [reflexivity|].
    split; [apply lookup_put_entry_same|].
    split; intros H.
    + now apply well_named_put, well_named_put.
    + now apply readable_put, readable_put.
Qed.

End StorageFacts.

(** X13: what is uploaded is listed: after a successful upload into a
    storage directory that can be read, [getFileList] has an entry for
    the upload, and both the identifier and the display name of the
    entry are the name on disk, [<uuid><extension>]; the original name
    of the file is not kept anywhere but in the log. *)
Theorem X13_upload_then_list
        (cfg : Config) (e : Env) (w : World) (r : Request)
        (filename data : string) (resp : Response) (w' : World)
        (es : entries) :
  FormFile r = Some (filename, data) ->
  uploadHandler cfg e w r = (Reply resp, w') ->
  status resp = 200 ->
  lookup uploadsDir (disk w) = Some (Dir es) ->
  well_named (Dir es) ->
  readable (Dir es) = true ->
  exists files,
    getFileList w' = inr files /\
    In {| ID := identifier e filename;
          Filename := identifier e filename |} files.
Proof.
  intros Hf Hrun Hst Hroot Hwf Hread.
  destruct (storage_after_upload _ _ _ _ _ _ _ _ _ Hf Hrun Hst Hroot)
    as (Hv & es' & content & Hroot' & Hid & Hwf' & Hread').
  pose proof (getFileList_dir w' (Dir es') Hroot' eq_refl (Hwf' Hwf))
    as Hlist.
  rewrite (Hread' Hread) in Hlist.
  eexists. split; [exact Hlist|].
  change {| ID := identifier e filename; Filename := identifier e filename |}
    with (entry_of [identifier e filename]).
  apply in_map. apply files_below_reaches. exists content.
  econstructor; [apply lookup_In; exact Hid | constructor].
Qed.

Lemma X13_upload_then_list_witness :
  exists files,
    getFileList
      (snd (uploadHandler sample_cfg sample_env home_world
              (POST "/upload" "report.final.pdf" "%PDF-1.7")))
    = inr files /\
    In {| ID := "01020304-0506-4708-890a-0b0c0d0e0f10.pdf";
          Filename := "01020304-0506-4708-890a-0b0c0d0e0f10.pdf" |} files.
Proof.
  pose (run := uploadHandler sample_cfg sample_env home_world
                 (POST "/upload" "report.final.pdf" "%PDF-1.7")).
  pose (resp := match fst run with
                | Reply resp => resp
                | Panic => NotFound []
                end).
  assert (Hrun : uploadHandler sample_cfg sample_env home_world
                   (POST "/upload" "report.final.pdf" "%PDF-1.7")
                 = (Reply resp, snd run)) by (vm_compute; reflexivity).
  assert (Hst : status resp = 200) by (vm_compute; reflexivity).
  apply (X13_upload_then_list sample_cfg sample_env home_world
           (POST "/upload" "report.final.pdf" "%PDF-1.7")
           "report.final.pdf" "%PDF-1.7" resp (snd run)
           [("old.txt", File "old")] eq_refl Hrun Hst eq_refl).
  - simpl. repeat split.
  - reflexivity.
Defined.

(** X14: GET /file/ resolves to the storage directory itself, and
    [http.ServeFile] answers it with the list of everything the
    directory holds, or with the bytes of a stored file called
    [index.html] if there is one. *)
Theorem X14_storage_listing
        (TypeByExtension : string -> string)
        (cfg : Config) (e : Env) (w : World) (es : entries) :
  lookup uploadsDir (disk w) = Some (Dir es) ->
  (lookup "index.html" es = None ->
   fileHandler TypeByExtension cfg e w (GET "/file/")
   = (Reply (dirList (file_headers TypeByExtension (GET "/file/")) es), w)) /\
  (forall data,
      lookup "index.html" es = Some (File data) ->
      fileHandler TypeByExtension cfg e w (GET "/file/")
      = (Reply (Page (file_headers TypeByExtension (GET "/file/")) data), w)).
Proof.
  intros Hroot.
  assert (Hrun := fileHandler_get TypeByExtension cfg e w (GET "/file/")
                    eq_refl (Nat.le_refl _)).
  change (resolved (GET "/file/")) with "uploads" in Hrun.
  rewrite Stat_top in Hrun by reflexivity.
  fold uploadsDir in Hrun. rewrite Hroot in Hrun.
  assert (Hserve : ServeFile (disk w)
                     (file_headers TypeByExtension (GET "/file/"))
                     (GET "/file/") uploadsDir
                   = match Stat (disk w) "uploads/index.html" with
                     | Ok (File data) =>
                         Page (file_headers TypeByExtension (GET "/file/"))
                              data
                     | Ok (Dir es') =>
                         dirList (file_headers TypeByExtension (GET "/file/"))
                                 es'
                     | _ => dirList
                              (file_headers TypeByExtension (GET "/file/")) es
                     end).
  { unfold ServeFile.
    change (containsDotDot (URLPath (GET "/file/"))) with false.
    change (has_suffix (URLPath (GET "/file/")) "/index.html") with false.
    change (negb (ends_with_slash (URLPath (GET "/file/")))) with false.
    cbv iota. rewrite Stat_top by reflexivity.
    rewrite Hroot. reflexivity. }
  rewrite Hserve in Hrun.
  change "uploads/index.html" with ("uploads/" ++ "index.html") in Hrun.
  rewrite (Stat_child (disk w) "index.html") in Hrun by reflexivity.
  rewrite Hroot in Hrun.
  split.
  - intros Hnone. now rewrite Hnone in Hrun.
  - intros data Hsome. now rewrite Hsome in Hrun.
Qed.

Lemma X14_storage_listing_witness :
  fst (fileHandler builtin_types sample_cfg sample_env nested_world
         (GET "/file/"))
  = Reply {| status := 200;
             header := Set_ "Content-Type" "text/html; charset=utf-8"
                         (file_headers builtin_types (GET "/file/"));
             body := Index ["a.txt"; "sub/"] |}.
Proof.
  destruct (X14_storage_listing builtin_types sample_cfg sample_env
              nested_world nested_entries eq_refl) as [Hlist _].
  exact (f_equal fst (Hlist eq_refl)).
Defined.

(** X15: [uploadHandler] never panics, and its status is 404 exactly
    for a method other than POST, 400 exactly for a POST without a
    readable form file, and 200 or 500 otherwise; an upload that is not
    answered 200 adds nothing to the log. *)
Theorem X15_upload_statuses
        (cfg : Config) (e : Env) (w : World) (r : Request) :
  exists resp,
    fst (uploadHandler cfg e w r) = Reply resp /\
    (status resp = 200 \/ status resp = 400 \/
     status resp = 404 \/ status resp = 500) /\
    (status resp = 404 <-> Method r <> "POST") /\
    (status resp = 400 <-> Method r = "POST" /\ FormFile r = None) /\
    (status resp <> 200 ->
     lookup logFileName (disk (snd (uploadHandler cfg e w r)))
     = lookup logFileName (disk w)).
Proof.
  rewrite upload_response, upload_world.
  destruct (String.eqb_spec (Method r) "POST") as [Hm|Hm].
  2:{ eexists. split; [reflexivity|]. cbn [status NotFound Error].
      split; [|split; [|split]].
      - right. right. now left.
      - split; [now intros _ | reflexivity].
      - split; [discriminate | now intros [H _]].
      - reflexivity. }
  destruct (FormFile r) as [[filename data]|] eqn:Hf.
  2:{ eexists. split; [reflexivity|].
      cbn [status Error StatusBadRequest].
      split; [|split; [|split]].
      - right. now left.
      - split; [discriminate | intros H; now contradiction H].
      - split; [now intros _ | reflexivity].
      - reflexivity. }
  cbv zeta.
  pose proof (target_of_upload e filename) as Hp.
  destruct (OpenFile_create _ _) as [[d1 f]|err] eqn:Hopen.
  - destruct (copy_fault e) as [k|].
    + eexists. split; [reflexivity|].
      cbn [status Error StatusInternalServerError].
      split; [|split; [|split]].
      * right. right. now right.
      * split; [discriminate | intros H; now contradiction H].
      * split; [discriminate | intros [_ H]; discriminate H].
      * intros _. cbn [disk Println set_disk].
        apply (copy_elsewhere _ _ _ _ _ logFileName Hp Hopen). discriminate.
    + eexists. split; [reflexivity|]. cbn [status Page].
      split; [|split; [|split]].
      * now left.
      * split; [discriminate | intros H; now contradiction H].
      * split; [discriminate | intros [_ H]; discriminate H].
      * intros H. now contradiction H.
  - eexists. split; [reflexivity|].
    cbn [status Error StatusInternalServerError].
    split; [|split; [|split]].
    + right. right. now right.
    + split; [discriminate | intros H; now contradiction H].
    + split; [discriminate | intros [_ H]; discriminate H].
    + intros _. cbn [disk Println]. now rewrite generateUUID_disk.
Qed.

Section CopyFacts.

(** The storage directory once a body, or a part of one, has been
    copied into the opened target. *)
Lemma copied_storage (d d1 : entries) (f : fd) (id data : string)
      (es : entries) :
  lookup uploadsDir d = Some (Dir es) ->
  mem slash id = false ->
  id <> ".." ->
  OpenFile_create d (filepath.Join [uploadsDir; id]) = Ok (d1, f) ->
  exists es',
    lookup uploadsDir (copied d1 f data) = Some (Dir es') /\
    forall x, x <> id -> lookup x es' = lookup x es.
Proof.
  intros Hroot Hslash Hdd Hopen.
  assert (Hv : valid_name id = true).
  { destruct (plain_name_cases _ Hslash) as [H|[H|[H|H]]];
      [| |contradiction|exact H];
      exfalso; rewrite Join_plain in Hopen by assumption;
      rewrite H in Hopen; cbn [String.eqb Ascii.eqb Bool.eqb orb] in Hopen;
      rewrite OpenFile_create_top in Hopen by reflexivity;
      fold uploadsDir in Hopen; rewrite Hroot in Hopen; discriminate Hopen. }
  rewrite Join_valid, OpenFile_create_child, Hroot in Hopen by assumption.
  unfold copied, contents.
  destruct (lookup id es) as [[old|sub|]|] eqn:Hid;
    try discriminate Hopen; injection Hopen as <- <-;
    cbn [get_node put_node].
  - rewrite Hroot. rewrite lookup_put_entry_same.
    eexists. split; [reflexivity|].
    intros x Hx. now apply lookup_put_entry_other.
  - rewrite !lookup_put_entry_same.
    eexists. split; [reflexivity|].
    intros x Hx. now rewrite !lookup_put_entry_other.
Qed.

End CopyFacts.

(** X16: an upload changes no stored file but its own target: in a
    storage directory that exists, every entry other than the one
    named by the identifier of the upload is, after the request, what
    it was before, whatever comes of the request. *)
Theorem X16_other_files_untouched
        (cfg : Config) (e : Env) (w : World) (r : Request) (es : entries) :
  lookup uploadsDir (disk w) = Some (Dir es) ->
  exists es',
    lookup uploadsDir (disk (snd (uploadHandler cfg e w r)))
    = Some (Dir es') /\
    forall x,
      (forall filename data,
          FormFile r = Some (filename, data) ->
          x <> identifier e filename) ->
      lookup x es' = lookup x es.
Proof.
  intros Hroot. rewrite upload_world.
  destruct (String.eqb (Method r) "POST"); [|now exists es].
  destruct (FormFile r) as [[filename data]|]; [|now exists es].
  cbv zeta.
  destruct (OpenFile_create _ _) as [[d1 f]|err] eqn:Hopen.
  - destruct (copy_fault e) as [k|].
    + cbn [disk Println set_disk].
      destruct (copied_storage _ _ _ _ (take k data) _ Hroot
                  (identifier_no_slash e filename)
                  (identifier_not_dotdot e filename) Hopen)
        as (es' & Hes' & Hother).
      exists es'. split; [exact Hes'|].
      intros x Hx. apply Hother. now apply (Hx filename data).
    + rewrite writeLog_other by discriminate. cbn [disk set_disk].
      destruct (copied_storage _ _ _ _ data _ Hroot
                  (identifier_no_slash e filename)
                  (identifier_not_dotdot e filename) Hopen)
        as (es' & Hes' & Hother).
      exists es'. split; [exact Hes'|].
      intros x Hx. apply Hother. now apply (Hx filename data).
  - cbn [disk Println]. rewrite generateUUID_disk. now exists es.
Qed.

Lemma X16_other_files_untouched_witness :
  exists es',
    lookup uploadsDir
      (disk (snd (uploadHandler sample_cfg sample_env home_world
                    (POST "/upload" "old.txt" "new"))))
    = Some (Dir es') /\
    lookup "old.txt" es' = Some (File "old").
Proof.
  destruct (X16_other_files_untouched sample_cfg sample_env home_world
              (POST "/upload" "old.txt" "new")
              [("old.txt", File "old")] eq_refl) as (es' & Hes' & Hother).
  exists es'. split; [exact Hes'|].
  rewrite (Hother "old.txt"); [reflexivity|].
  intros filename data [= <- <-]. vm_compute. discriminate.
Defined.

Section TraversalFacts.









End TraversalFacts.



